(** * Detection pipeline of the e57-to-ifc converter (backend/app/processing.py,
      backend/app/ifc_generator.py)

    Coordinates are modelled as exact rationals [Q]: the heuristics only
    compare, add, multiply and divide coordinates, and the properties below
    are about the structure of the results, not about rounding.  numpy's
    [min], [max], [histogram] and [histogram2d] are modelled by what they
    compute over exact values; Python's [int] on a non-negative value truncates,
    which is [Z.quot] on the numerator and denominator. *)

From Stdlib Require Import String.
From Stdlib Require Import QArith Qround ZArith List Lia Bool.
Import ListNotations.

Open Scope Q_scope.

(** ** Python errors and a small error monad *)

Inductive py_error :=
| ValueError          (* numpy reduction of an empty array, non-positive bins *)
| OverflowError       (* int() of an infinite float *)
| AttributeError.     (* a processor whose cloud is still None *)

Inductive res (A : Type) : Type :=
| Ok (a : A)
| Err (e : py_error).
Arguments Ok {A} a.
Arguments Err {A} e.

Definition bind {A B} (m : res A) (k : A -> res B) : res B :=
  match m with
  | Ok a => k a
  | Err e => Err e
  end.

Notation "x <- m ;; k" := (bind m (fun x => k))
  (at level 61, m at next level, right associativity).

(** ** Points *)

Record point := mkpt { px : Q; py : Q; pz : Q }.

Definition Qltb (a b : Q) : bool := negb (Qle_bool b a).

Definition nat2Q (n : nat) : Q := inject_Z (Z.of_nat n).

(** [arr.min()] / [arr.max()]: ValueError on an empty array. *)
Definition py_min (xs : list Q) : res Q :=
  match xs with
  | [] => Err ValueError
  | x :: xs' => Ok (fold_left (fun m y => if Qltb y m then y else m) xs' x)
  end.

Definition py_max (xs : list Q) : res Q :=
  match xs with
  | [] => Err ValueError
  | x :: xs' => Ok (fold_left (fun m y => if Qltb m y then y else m) xs' x)
  end.

(** Python's [int] (truncation toward zero). *)
Definition py_int (q : Q) : Z := Z.quot (Qnum q) (Zpos (Qden q)).

(** [int(a / b)] where [a] is a numpy float: [a / 0.0] is [inf] (or [nan]
    when [a] is 0 too), on which [int] raises. *)
Definition py_int_div (a b : Q) : res Z :=
  if Qeq_bool b 0 then Err (if Qeq_bool a 0 then ValueError else OverflowError)
  else Ok (py_int (a / b)).

(** [np.max] of a non-empty array of counts. *)
Definition max_nat (l : list nat) : nat := fold_left Nat.max l 0%nat.

(** [np.mean] of a list. *)
Definition mean (xs : list Q) : Q :=
  fold_right Qplus 0 xs / nat2Q (length xs).

(** ** numpy histograms over exact values *)

(** numpy's [_get_outer_edges]: an empty range is widened by 0.5 each side. *)
Definition outer_edges (lo hi : Q) : Q * Q :=
  if Qeq_bool lo hi then (lo - (1#2), hi + (1#2)) else (lo, hi).

(** The data range numpy uses; (0, 1) for an empty array. *)
Definition data_range (xs : list Q) : Q * Q :=
  match py_min xs, py_max xs with
  | Ok lo, Ok hi => outer_edges lo hi
  | _, _ => (0, 1)
  end.

(** [np.linspace(lo, hi, n + 1)[k]]: [start + k * step], last entry [stop]. *)
Definition linspace_at (lo hi : Q) (n k : nat) : Q :=
  if Nat.eqb k n then hi else lo + nat2Q k * ((hi - lo) / nat2Q n).

(** The bin of [x] among [n] equal bins over [lo, hi]: all bins half-open
    except the last, which also holds [hi]. *)
Definition bin_index (lo hi : Q) (n : nat) (x : Q) : nat :=
  let k := Z.to_nat (Qfloor ((x - lo) / (hi - lo) * nat2Q n)) in
  if Nat.eqb k n then (n - 1)%nat else k.

(** [np.histogram(xs, bins=bins)]: the counts and the [bins + 1] edges. *)
Definition histogram (xs : list Q) (bins : Z) : res (list nat * list Q) :=
  if (bins <? 1)%Z then Err ValueError else
  let n := Z.to_nat bins in
  let '(lo, hi) := data_range xs in
  Ok (map (fun i => length (filter (fun x => Nat.eqb (bin_index lo hi n x) i) xs))
          (seq 0 n),
      map (linspace_at lo hi n) (seq 0 (S n))).

Record hist2d := mkhist2d {
  h2_count : nat -> nat -> nat;   (* hist_2d[i, j] *)
  h2_xedges : list Q;
  h2_yedges : list Q }.

(** [np.histogram2d(xs, ys, bins=[nx, ny])]. *)
Definition histogram2d (xs ys : list Q) (nx ny : Z) : res hist2d :=
  if ((nx <? 1) || (ny <? 1))%Z then Err ValueError else
  let nx' := Z.to_nat nx in
  let ny' := Z.to_nat ny in
  let '(xlo, xhi) := data_range xs in
  let '(ylo, yhi) := data_range ys in
  let pts := combine xs ys in
  Ok (mkhist2d
        (fun i j => length (filter (fun p =>
            Nat.eqb (bin_index xlo xhi nx' (fst p)) i &&
            Nat.eqb (bin_index ylo yhi ny' (snd p)) j) pts))
        (map (linspace_at xlo xhi nx') (seq 0 (S nx')))
        (map (linspace_at ylo yhi ny') (seq 0 (S ny')))).

(** [np.max(hist_2d)] over an [nx] by [ny] grid. *)
Definition hist2d_max (h : nat -> nat -> nat) (nx ny : nat) : nat :=
  max_nat (flat_map (fun i => map (h i) (seq 0 ny)) (seq 0 nx)).

(** ** detect_slabs *)

Record slab_candidate := mkcand { cand_z : Q; cand_density : nat }.

Record slab := mkslab { slab_z : Q; slab_thickness : Q }.

Definition close_slab (current : list slab_candidate) : slab :=
  mkslab (mean (map cand_z current)) (3#10).

Definition dummy_cand : slab_candidate := mkcand 0 0.

(** The grouping loop: [current_slab] and the candidates still to visit. *)
Fixpoint group_loop (current : list slab_candidate) (rest : list slab_candidate)
  : list slab :=
  match rest with
  | [] => if (0 <? length current)%nat then [close_slab current] else []
  | c :: rest' =>
      if Qltb (cand_z c - cand_z (last current dummy_cand)) (3#10)
      then group_loop (current ++ [c]) rest'
      else close_slab current :: group_loop [c] rest'
  end.

Definition group_slabs (cands : list slab_candidate) : list slab :=
  match cands with
  | [] => []
  | c0 :: rest => group_loop [c0] rest
  end.

Definition slab_candidates (hist : list nat) (bin_edges : list Q) (threshold : Q)
  : list slab_candidate :=
  flat_map (fun i =>
      if Qltb threshold (nat2Q (nth i hist 0%nat))
      then [mkcand ((nth i bin_edges 0 + nth (S i) bin_edges 0) / 2) (nth i hist 0%nat)]
      else [])
    (seq 0 (length hist)).

Definition detect_slabs (points : list point) (z_step : Q) : res (list slab) :=
  let z_coords := map pz points in
  z_min <- py_min z_coords ;;
  z_max <- py_max z_coords ;;
  bins <- py_int_div (z_max - z_min) z_step ;;
  hb <- histogram z_coords bins ;;
  let threshold := nat2Q (max_nat (fst hb)) * (3#10) in
  Ok (group_slabs (slab_candidates (fst hb) (snd hb) threshold)).

(** ** Occupancy grids shared by detect_walls and detect_columns *)

(** The center of cell [i]: [(edges[i] + edges[i+1]) / 2]. *)
Definition cell_center (edges : list Q) (i : nat) : Q :=
  (nth i edges 0 + nth (S i) edges 0) / 2.

(** What a detector knows once its occupancy grid is built. *)
Record grid := mkgrid {
  g_hist : hist2d;
  g_nx : nat;               (* x_bins *)
  g_ny : nat;               (* y_bins *)
  g_threshold : Q;
  g_zmin : Q;
  g_height : Q }.

(** ** detect_walls *)

Record wall := mkwall {
  wall_start : point;
  wall_end : point;
  wall_height : Q;
  wall_thickness : Q }.

(** Lines 72-107: everything up to the scan; [Ok None] is the early
    [return []] when no point lies above the height threshold. *)
Definition walls_setup (points : list point) (grid_size : Q) : res (option grid) :=
  let z_coords := map pz points in
  z_min <- py_min z_coords ;;
  z_max <- py_max z_coords ;;
  let z_range := z_max - z_min in
  let z_threshold := z_min + z_range * (1#2) in
  let wall_points := filter (fun p => Qltb z_threshold (pz p)) points in
  match wall_points with
  | [] => Ok None
  | _ :: _ =>
      let xs := map px wall_points in
      let ys := map py wall_points in
      x_min <- py_min xs ;; x_max <- py_max xs ;;
      y_min <- py_min ys ;; y_max <- py_max ys ;;
      xq <- py_int_div (x_max - x_min) grid_size ;;
      yq <- py_int_div (y_max - y_min) grid_size ;;
      let x_bins := (xq + 1)%Z in
      let y_bins := (yq + 1)%Z in
      h <- histogram2d xs ys x_bins y_bins ;;
      let nx := Z.to_nat x_bins in
      let ny := Z.to_nat y_bins in
      let threshold := nat2Q (hist2d_max (h2_count h) nx ny) * (2#10) in
      Ok (Some (mkgrid h nx ny threshold z_min (z_max - z_min)))
  end.

Definition wall_mask (g : grid) (i j : nat) : bool :=
  Qltb (g_threshold g) (nat2Q (h2_count (g_hist g) i j)).

(** The wall of one grid line from its occupied-cell centers. *)
Definition line_wall (g : grid) (wall_segments : list (Q * Q)) : wall :=
  let s := hd (0, 0) wall_segments in
  let e := last wall_segments (0, 0) in
  mkwall (mkpt (fst s) (snd s) (g_zmin g)) (mkpt (fst e) (snd e) (g_zmin g))
         (g_height g) (2#10).

Definition center_of (g : grid) (i j : nat) : Q * Q :=
  (cell_center (h2_xedges (g_hist g)) i, cell_center (h2_yedges (g_hist g)) j).

(** Occupied-cell centers of the fixed row [j] (scanning [i]). *)
Definition row_segments (g : grid) (j : nat) : list (Q * Q) :=
  map (fun i => center_of g i j) (filter (fun i => wall_mask g i j) (seq 0 (g_nx g))).

(** Occupied-cell centers of the fixed column [i] (scanning [j]). *)
Definition col_segments (g : grid) (i : nat) : list (Q * Q) :=
  map (fun j => center_of g i j) (filter (fun j => wall_mask g i j) (seq 0 (g_ny g))).

Definition emit_line (g : grid) (wall_segments : list (Q * Q)) : list wall :=
  if (5 <? length wall_segments)%nat then [line_wall g wall_segments] else [].

(** Lines 106-148: the two scans. *)
Definition wall_scan (g : grid) : list wall :=
  flat_map (fun j => emit_line g (row_segments g j)) (seq 0 (g_ny g)) ++
  flat_map (fun i => emit_line g (col_segments g i)) (seq 0 (g_nx g)).

Definition detect_walls (points : list point) (grid_size : Q) : res (list wall) :=
  s <- walls_setup points grid_size ;;
  match s with
  | None => Ok []
  | Some g => Ok (wall_scan g)
  end.

(** ** detect_columns *)

Record column := mkcolumn {
  col_position : point;
  col_height : Q;
  col_width : Q;
  col_depth : Q }.

(** Lines 157-188: everything up to the scan; [Ok None] is the early
    [return []] for a height range below 2.0. *)
Definition columns_setup (points : list point) (grid_size : Q) : res (option grid) :=
  let z_coords := map pz points in
  z_min <- py_min z_coords ;;
  z_max <- py_max z_coords ;;
  let height_range := z_max - z_min in
  if Qltb height_range 2 then Ok None else
  let xs := map px points in
  let ys := map py points in
  x_min <- py_min xs ;; x_max <- py_max xs ;;
  y_min <- py_min ys ;; y_max <- py_max ys ;;
  xq <- py_int_div (x_max - x_min) grid_size ;;
  yq <- py_int_div (y_max - y_min) grid_size ;;
  let x_bins := Z.min (xq + 1) 200 in
  let y_bins := Z.min (yq + 1) 200 in
  h <- histogram2d xs ys x_bins y_bins ;;
  let nx := Z.to_nat x_bins in
  let ny := Z.to_nat y_bins in
  let threshold := nat2Q (hist2d_max (h2_count h) nx ny) * (6#10) in
  Ok (Some (mkgrid h nx ny threshold z_min height_range)).

(** [np.max(hist_2d[i-1:i+2, j-1:j+2])]. *)
Definition neighbors_max (h : nat -> nat -> nat) (i j : nat) : nat :=
  max_nat (flat_map (fun a => map (h a) (seq (j - 1) 3)) (seq (i - 1) 3)).

Definition column_at (g : grid) (i j : nat) : column :=
  let c := center_of g i j in
  mkcolumn (mkpt (fst c) (snd c) (g_zmin g)) (g_height g) (4#10) (4#10).

Definition column_cell (g : grid) (i j : nat) : list column :=
  let h := h2_count (g_hist g) in
  if Qltb (g_threshold g) (nat2Q (h i j)) then
    if Nat.eqb (h i j) (neighbors_max h i j) then [column_at g i j] else []
  else [].

(** Lines 190-208: the interior cells in scan order. *)
Definition column_scan (g : grid) : list column :=
  flat_map (fun i => flat_map (fun j => column_cell g i j) (seq 1 (g_ny g - 2)))
           (seq 1 (g_nx g - 2)).

(** Lines 210-213: the cap. *)
Definition cap_columns (columns : list column) : list column :=
  if (50 <? length columns)%nat then firstn 20 columns else columns.

Definition detect_columns (points : list point) (grid_size : Q) : res (list column) :=
  s <- columns_setup points grid_size ;;
  match s with
  | None => Ok []
  | Some g => Ok (cap_columns (column_scan g))
  end.

(** ** IFCGenerator geometry (ifc_generator.py) *)

(** [bounds['min']], [bounds['max']] of the model. *)
Record bounds := mkbounds { bmin : point; bmax : point }.

Record rect_profile := mkprofile { prof_xdim : Q; prof_ydim : Q }.

(** The geometry of an element: the profile, the profile's local origin and
    the extrusion direction inside [IfcExtrudedAreaSolid], the extrusion depth,
    and the location of the object placement. *)
Record extrusion_geometry := mkgeom {
  geo_profile : rect_profile;
  geo_profile_origin : point;
  geo_extruded_direction : point;
  geo_depth : Q;
  geo_location : point }.

(** [create_slab] (lines 103-174), its geometry. *)
Definition create_slab (slab_data : slab) (b : bounds) : extrusion_geometry :=
  let z_level := slab_z slab_data in
  let thickness := slab_thickness slab_data in
  let min_bounds := bmin b in
  let max_bounds := bmax b in
  let length := px max_bounds - px min_bounds in
  let width := py max_bounds - py min_bounds in
  let center_x := (px max_bounds + px min_bounds) / 2 in
  let center_y := (py max_bounds + py min_bounds) / 2 in
  mkgeom (mkprofile length width) (mkpt 0 0 0) (mkpt 0 0 1) thickness
         (mkpt center_x center_y z_level).

(** [dx**2 + dy**2] of [create_wall]. *)
Definition wall_length_sq (w : wall) : Q :=
  let dx := px (wall_end w) - px (wall_start w) in
  let dy := py (wall_end w) - py (wall_start w) in
  dx ^ 2 + dy ^ 2.

(** The discard test of [create_wall] (line 204), [length < 0.1] with
    [length = math.sqrt(dx**2 + dy**2)]; the square root of a non-negative
    number is below 0.1 exactly when the number is below 0.01. *)
Definition wall_too_short (w : wall) : bool := Qltb (wall_length_sq w) (1#100).

(** ** PointCloudProcessor.segment_building_elements and save_model_data *)

(** The processor's attributes; a cloud is [None] until it is loaded. *)
Record processor := mkprocessor {
  task_id : String.string;
  e57_path : String.string;
  point_cloud : option (list point);
  downsampled_cloud : option (list point) }.

Record elements := mkelements {
  el_slabs : list slab;
  el_walls : list wall;
  el_columns : list column }.

(** Lines 291-313, with the detectors' default parameters. *)
Definition segment_building_elements (self : processor) : res elements :=
  match downsampled_cloud self with
  | None => Err AttributeError
  | Some cloud =>
      slabs <- detect_slabs cloud (5#100) ;;
      walls <- detect_walls cloud (1#10) ;;
      columns <- detect_columns cloud (5#10) ;;
      Ok (mkelements slabs walls columns)
  end.

(** Open3D's [get_min_bound] / [get_max_bound]: zero for an empty cloud. *)
Definition fold_bound (sel : Q -> Q -> bool) (xs : list Q) : Q :=
  match xs with
  | [] => 0
  | x :: xs' => fold_left (fun m y => if sel y m then y else m) xs' x
  end.

Definition get_min_bound (c : list point) : point :=
  mkpt (fold_bound Qltb (map px c)) (fold_bound Qltb (map py c)) (fold_bound Qltb (map pz c)).

Definition get_max_bound (c : list point) : point :=
  mkpt (fold_bound (fun y m => Qltb m y) (map px c))
       (fold_bound (fun y m => Qltb m y) (map py c))
       (fold_bound (fun y m => Qltb m y) (map pz c)).

Record model_data := mkmodel {
  md_task_id : String.string;
  md_point_count : nat;
  md_elements : elements;
  md_bounds : bounds }.

(** The record [save_model_data] writes (lines 319-328), without the path. *)
Definition assemble (self : processor) (els : elements) : res model_data :=
  match downsampled_cloud self with
  | None => Err AttributeError
  | Some c => Ok (mkmodel (task_id self) (length c) els
                          (mkbounds (get_min_bound c) (get_max_bound c)))
  end.

(** Segmentation followed by assembly. *)
Definition run_pipeline (self : processor) : res model_data :=
  els <- segment_building_elements self ;;
  assemble self els.

(** [generate] (ifc_generator.py, lines 380-382): every slab of the stored
    model gets the geometry of [create_slab] with the model's bounds. *)
Definition generate_slabs (md : model_data) : list extrusion_geometry :=
  map (fun s => create_slab s (md_bounds md)) (el_slabs (md_elements md)).

Definition res_map {A B} (f : A -> B) (m : res A) : res B :=
  match m with
  | Ok a => Ok (f a)
  | Err e => Err e
  end.

(** ** Sample point clouds *)

(** One point on the floor and six in a row above it, 0.01 apart. *)
Definition exw : list point :=
  mkpt 0 0 0 :: map (fun k => mkpt (inject_Z k / 100) 0 1) [0;1;2;3;4;5]%Z.

(** Two equally dense neighbouring cells of the column grid. *)
Definition exc : list point :=
  [mkpt 0 0 0; mkpt 2 1 2; mkpt (6#10) (1#2) 1; mkpt (6#10) (1#2) 1; mkpt (6#10) (1#2) 1;
   mkpt 1 (1#2) 1; mkpt 1 (1#2) 1; mkpt 1 (1#2) 1].

(** Six points in a row at z = 1, 0.1 apart, above one floor point. *)
Definition exw10 : list point :=
  mkpt 0 0 0 :: map (fun k => mkpt (inject_Z k / 10) 0 1) [0;1;2;3;4;5]%Z.

(** The z range of the points above [z_min + 0.5 * (z_max - z_min)]: the
    "restricted point set" of the claim about wall heights. *)
Definition upper_band_z_range (pc : list point) : res Q :=
  let z_coords := map pz pc in
  z_min <- py_min z_coords ;;
  z_max <- py_max z_coords ;;
  let band := filter (fun z => Qltb (z_min + (z_max - z_min) * (1#2)) z) z_coords in
  lo <- py_min band ;;
  hi <- py_max band ;;
  Ok (hi - lo).

(** One point on the floor and one at z = 1. *)
Definition ex2 : list point := [mkpt 0 0 0; mkpt 0 0 1].

(** One point on the floor and one 0.31 above it. *)
Definition ex031 : list point := [mkpt 0 0 0; mkpt 0 0 (31#100)].

Definition line_wall_dummy : wall := mkwall (mkpt 0 0 0) (mkpt 0 0 0) 0 0.

(** The walls found on [exw10] with the default grid size. *)
Definition walls10 : list wall :=
  Eval vm_compute in
    match detect_walls exw10 (1#10) with Ok r => r | Err _ => [] end.

(** The slabs found on [ex2] with the default step, and the columns found on
    [exc] with the default grid size. *)
Definition slabs_ex2 : list slab :=
  Eval vm_compute in
    match detect_slabs ex2 (5#100) with Ok r => r | Err _ => [] end.

Definition column_dummy : column := mkcolumn (mkpt 0 0 0) 0 0 0.

Definition columns_exc : list column :=
  Eval vm_compute in
    match detect_columns exc (5#10) with Ok r => r | Err _ => [] end.

(** The bin width of detect_slabs' histogram over the z range [a, b] with
    the default step 0.05: [(b - a) / int((b - a) / 0.05)]. *)
Definition slab_bin_width (a b : Q) : Q :=
  (b - a) / inject_Z (py_int ((b - a) / (5#100))).

(** ** Orderings of elevations *)

(** Every entry is at most every later entry. *)
Fixpoint sorted_le (l : list Q) : Prop :=
  match l with
  | [] => True
  | x :: t => Forall (fun y => x <= y) t /\ sorted_le t
  end.

(** Each entry is at least [d] above the previous one. *)
Fixpoint spaced (d : Q) (l : list Q) : Prop :=
  match l with
  | x :: ((y :: _) as t) => x + d <= y /\ spaced d t
  | _ => True
  end.

(** ** IFCGenerator: storeys, walls, columns and generate *)

(** The decimal digits of [n], last digit first. *)
Fixpoint digits_rev (fuel n : nat) : list Ascii.ascii :=
  match fuel with
  | O => []
  | S f => Ascii.ascii_of_nat (48 + n mod 10)%nat
           :: (if (n <? 10)%nat then [] else digits_rev f (n / 10)%nat)
  end.

(** [str(n)] of a non-negative int. *)
Definition py_str_nat (n : nat) : string :=
  string_of_list_ascii (rev (digits_rev (S n) n)).

(** [self.storeys] after [create_ifc_structure(storeys_count)] (lines 77-99):
    each key with the name of its storey.  The project, units, contexts, site
    and building it creates first do not depend on [storeys_count]. *)
Definition create_ifc_structure (storeys_count : nat) : list (nat * string) :=
  if (1 <? storeys_count)%nat
  then map (fun i => (i, String.append "Floor " (py_str_nat i))) (seq 0 storeys_count)
  else [(0%nat, "Ground Floor"%string)].

(** [self.storeys.get(k)]. *)
Definition storey_lookup (storeys : list (nat * string)) (k : nat) : option string :=
  option_map snd (find (fun kv => Nat.eqb (fst kv) k) storeys).

(** [self.storeys.get(storey_idx, self.storeys[0])] (lines 278 and 355): the
    default argument is evaluated first and raises KeyError ([None]) when
    there is no key 0; otherwise the key of the storey returned. *)
Definition target_storey (storeys : list (nat * string)) (storey_idx : nat) : option nat :=
  match storey_lookup storeys 0 with
  | None => None
  | Some _ => Some (match storey_lookup storeys storey_idx with
                    | Some _ => storey_idx
                    | None => 0%nat
                    end)
  end.

Inductive ifc_class := IfcSlab | IfcWall | IfcColumn.

(** The body and placement [create_wall] gives a wall it keeps
    (lines 217-274).  The profile's XDim is [math.sqrt] of [wb_length_sq]
    and the RefDirection [(cos, sin)] of [math.atan2(dy, dx)] is the
    direction of [wb_direction]. *)
Record wall_body := mkwallbody {
  wb_length_sq : Q;
  wb_ydim : Q;
  wb_profile_origin : point;
  wb_depth : Q;
  wb_location : point;
  wb_direction : Q * Q }.

Inductive representation :=
| SweptSolid (g : extrusion_geometry)
| WallSolid (b : wall_body).

(** An element entity: its class, its Representation with its ObjectPlacement
    ([None] while they are unset), and the key of the storey
    [spatial.assign_container] puts it in ([None] when it is never run). *)
Record ifc_product := mkproduct {
  prod_class : ifc_class;
  prod_body : option representation;
  prod_container : option nat }.

(** [create_slab] as an entity (lines 107-181): contained in
    [self.storeys[0]], which raises KeyError when there is no key 0. *)
Definition create_slab_product (storeys : list (nat * string)) (slab_data : slab)
    (b : bounds) : option ifc_product :=
  match storey_lookup storeys 0 with
  | None => None
  | Some _ => Some (mkproduct IfcSlab (Some (SweptSolid (create_slab slab_data b))) (Some 0%nat))
  end.

(** [create_wall] (lines 183-285).  The IfcWall entity is created before the
    length test, so a wall shorter than 0.1 stays in the file with neither
    geometry nor storey.  The walls of the model have no ['storey'] key, so
    [storey_idx] is 0. *)
Definition create_wall (storeys : list (nat * string)) (wall_data : wall) : option ifc_product :=
  let start := wall_start wall_data in
  let end_ := wall_end wall_data in
  let height := wall_height wall_data in
  let thickness := wall_thickness wall_data in
  let dx := px end_ - px start in
  let dy := py end_ - py start in
  if wall_too_short wall_data then Some (mkproduct IfcWall None None)
  else
    match target_storey storeys 0 with
    | None => None
    | Some k =>
        Some (mkproduct IfcWall
                (Some (WallSolid (mkwallbody (wall_length_sq wall_data) thickness
                                   (mkpt 0 (- thickness / 2) 0) height
                                   (mkpt (px start) (py start) (pz start)) (dx, dy))))
                (Some k))
    end.

(** The geometry [create_column] gives a column (lines 296-351). *)
Definition column_geometry (column_data : column) : extrusion_geometry :=
  let position := col_position column_data in
  mkgeom (mkprofile (col_width column_data) (col_depth column_data))
         (mkpt 0 0 0) (mkpt 0 0 1) (col_height column_data)
         (mkpt (px position) (py position) (pz position)).

(** [create_column] (lines 287-362); [storey_idx] is 0 as for walls. *)
Definition create_column (storeys : list (nat * string)) (column_data : column)
    : option ifc_product :=
  match target_storey storeys 0 with
  | None => None
  | Some k => Some (mkproduct IfcColumn (Some (SweptSolid (column_geometry column_data))) (Some k))
  end.

(** A [for] loop whose body may raise: all results, or [None] at the first
    exception. *)
Fixpoint map_all {A B} (f : A -> option B) (xs : list A) : option (list B) :=
  match xs with
  | [] => Some []
  | x :: xs' =>
      match f x with
      | None => None
      | Some y => match map_all f xs' with
                  | None => None
                  | Some ys => Some (y :: ys)
                  end
      end
  end.

(** What [ifc_file.write] stores: the storeys and the element entities in
    creation order. *)
Record ifc_model := mkifc {
  ifc_storeys : list (nat * string);
  ifc_products : list ifc_product }.

(** [generate] (lines 364-397) on the model read back from
    [models/{task_id}.json], whose JSON round trip keeps every number, list
    and key; [storeys_len] is [len(model_data.get('storeys', []))].  The
    output path and the file written there, or [None] on KeyError. *)
Definition generate (md : model_data) (storeys_len : nat) : option (string * ifc_model) :=
  let storeys_count := if Nat.eqb storeys_len 0 then 1%nat else storeys_len in
  let storeys := create_ifc_structure storeys_count in
  let els := md_elements md in
  match map_all (fun s => create_slab_product storeys s (md_bounds md)) (el_slabs els) with
  | None => None
  | Some slabs =>
    match map_all (create_wall storeys) (el_walls els) with
    | None => None
    | Some walls =>
      match map_all (create_column storeys) (el_columns els) with
      | None => None
      | Some columns =>
          Some (String.append "exports/" (String.append (md_task_id md) ".ifc"),
                mkifc storeys (slabs ++ walls ++ columns))
      end
    end
  end.

(** An entity whose Representation was never set. *)
Definition has_no_body (p : ifc_product) : bool :=
  match prod_body p with None => true | Some _ => false end.

(** ** JSON documents and the file system *)

#[warnings="-register-all"]
Inductive json :=
| JNull
| JBool (b : bool)
| JInt (z : Z)
| JFloat (q : Q)
| JStr (s : string)
| JArr (l : list json)
| JObj (kv : list (string * json)).

(** A Python dict with string keys, in insertion order. *)
Fixpoint dict_get {V} (d : list (string * V)) (k : string) : option V :=
  match d with
  | [] => None
  | (k', v) :: d' => if String.eqb k' k then Some v else dict_get d' k
  end.

(** [d[k] = v]: an existing key keeps its place. *)
Fixpoint dict_set {V} (d : list (string * V)) (k : string) (v : V) : list (string * V) :=
  match d with
  | [] => [(k, v)]
  | (k', v') :: d' => if String.eqb k' k then (k', v) :: d' else (k', v') :: dict_set d' k v
  end.

(** [d.update(u)]. *)
Definition dict_update {V} (d u : list (string * V)) : list (string * V) :=
  fold_left (fun acc kv => dict_set acc (fst kv) (snd kv)) u d.

Definition point_json (p : point) : json := JArr [JFloat (px p); JFloat (py p); JFloat (pz p)].

(** The dicts the detectors return (processing.py, lines 55-60, 135-141,
    203-209). *)
Definition slab_json (s : slab) : json :=
  JObj [("type", JStr "IfcSlab"); ("z", JFloat (slab_z s));
        ("thickness", JFloat (slab_thickness s))]%string.

Definition wall_json (w : wall) : json :=
  JObj [("type", JStr "IfcWall"); ("start", point_json (wall_start w));
        ("end", point_json (wall_end w)); ("height", JFloat (wall_height w));
        ("thickness", JFloat (wall_thickness w))]%string.

Definition column_json (c : column) : json :=
  JObj [("type", JStr "IfcColumn"); ("position", point_json (col_position c));
        ("height", JFloat (col_height c)); ("width", JFloat (col_width c));
        ("depth", JFloat (col_depth c))]%string.

Definition ply_path_of (tid : string) : string :=
  String.append "processed/" (String.append tid ".ply").

Definition model_path_of (tid : string) : string :=
  String.append "models/" (String.append tid ".json").

Definition ifc_path_of (tid : string) : string :=
  String.append "exports/" (String.append tid ".ifc").

Definition upload_path_of (tid : string) : string :=
  String.append "uploads/" (String.append tid ".e57").

(** The dict [save_model_data] dumps (lines 319-328). *)
Definition model_json (md : model_data) : json :=
  let els := md_elements md in
  JObj [("task_id", JStr (md_task_id md));
        ("point_count", JInt (Z.of_nat (md_point_count md)));
        ("ply_path", JStr (ply_path_of (md_task_id md)));
        ("elements", JObj [("slabs", JArr (map slab_json (el_slabs els)));
                           ("walls", JArr (map wall_json (el_walls els)));
                           ("columns", JArr (map column_json (el_columns els)))]);
        ("bounds", JObj [("min", point_json (bmin (md_bounds md)));
                         ("max", point_json (bmax (md_bounds md)))])]%string.

(** [len(model_data.get('storeys', []))] on a loaded JSON document; [None]
    where Python raises (no [.get] on a non-dict, no [len] of a number). *)
Definition storeys_len (j : json) : option nat :=
  match j with
  | JObj kv =>
      match dict_get kv "storeys"%string with
      | None => Some 0%nat
      | Some (JArr l) => Some (length l)
      | Some (JObj kv') => Some (length kv')
      | Some (JStr s) => Some (String.length s)   (* in bytes: code points for ASCII *)
      | Some _ => None
      end
  | _ => None
  end.

(** The content of a file, by the call that wrote it. *)
Inductive file :=
| FBytes (content : string)      (* an upload copied by shutil.copyfileobj *)
| FPly (points : list point)     (* o3d.io.write_point_cloud *)
| FJson (j : json)               (* json.dump *)
| FIfc (m : ifc_model).          (* ifc_file.write *)

(** The files under the backend's working directory, by path. *)
Definition fs := list (string * file).

Definition fs_read (d : fs) (path : string) : option file := dict_get d path.

Definition fs_write (d : fs) (path : string) (f : file) : fs := dict_set d path f.

(** ** process_point_cloud *)

Section Processing.

(** Open3D and pye57, which the module calls but does not define: reading the
    first scan of an E57 file ([None] when pye57 raises), the points kept by
    [remove_statistical_outlier(nb_neighbors=20, std_ratio=2.0)], and
    [voxel_down_sample]. *)
Variable read_scan : file -> option (list point).
Variable remove_statistical_outlier : list point -> list point.
Variable voxel_down_sample : Q -> list point -> list point.

(** [PointCloudProcessor(task_id)] (lines 222-226). *)
Definition PointCloudProcessor (tid : string) : processor :=
  mkprocessor tid (upload_path_of tid) None None.

(** [load_e57] (lines 228-255): [None] when it returns False. *)
Definition load_e57 (self : processor) (d : fs) : option processor :=
  match fs_read d (e57_path self) with
  | None => None
  | Some f =>
      match read_scan f with
      | None => None
      | Some points => Some (mkprocessor (task_id self) (e57_path self) (Some points)
                                         (downsampled_cloud self))
      end
  end.

(** [filter_noise] (lines 257-270) and [downsample] (lines 272-281). *)
Definition filter_noise (self : processor) : res processor :=
  match point_cloud self with
  | None => Err AttributeError
  | Some c => Ok (mkprocessor (task_id self) (e57_path self)
                              (Some (remove_statistical_outlier c)) (downsampled_cloud self))
  end.

Definition downsample (self : processor) (voxel_size : Q) : res processor :=
  match point_cloud self with
  | None => Err AttributeError
  | Some c => Ok (mkprocessor (task_id self) (e57_path self) (point_cloud self)
                              (Some (voxel_down_sample voxel_size c)))
  end.

Inductive process_error :=
| LoadFailed                 (* load_e57 returned False *)
| Raised (e : py_error)      (* an exception of the pipeline *)
| KeyErrorRaised             (* self.storeys[0] *)
| TypeErrorRaised.           (* len of the 'storeys' entry, or no downsampled cloud *)

(** The dict [process_point_cloud] returns: the status "error", or
    "processed" with the point count, the three paths and the element
    counts. *)
Inductive process_result :=
| ProcessError (e : process_error)
| Processed (point_count : nat) (ply_path model_path ifc_path : string)
            (slabs walls columns : nat).

(** [process_point_cloud] (lines 338-386) with the files it writes. *)
Definition process_point_cloud (tid : string) (d : fs) : process_result * fs :=
  let processor := PointCloudProcessor tid in
  match load_e57 processor d with
  | None => (ProcessError LoadFailed, d)
  | Some p1 =>
    match filter_noise p1 with
    | Err e => (ProcessError (Raised e), d)
    | Ok p2 =>
      match downsample p2 (5#100) with
      | Err e => (ProcessError (Raised e), d)
      | Ok p3 =>
        match downsampled_cloud p3 with
        | None => (ProcessError TypeErrorRaised, d)
        | Some down =>
          let ply_path := ply_path_of (task_id p3) in
          let d1 := fs_write d ply_path (FPly down) in
          match segment_building_elements p3 with
          | Err e => (ProcessError (Raised e), d1)
          | Ok els =>
            match assemble p3 els with
            | Err e => (ProcessError (Raised e), d1)
            | Ok md =>
              let model_path := model_path_of (task_id p3) in
              let mj := model_json md in
              let d2 := fs_write d1 model_path (FJson mj) in
              match storeys_len mj with
              | None => (ProcessError TypeErrorRaised, d2)
              | Some n =>
                match generate md n with
                | None => (ProcessError KeyErrorRaised, d2)
                | Some (ifc_path, m) =>
                    (Processed (length down) ply_path model_path ifc_path
                               (length (el_slabs els)) (length (el_walls els))
                               (length (el_columns els)),
                     fs_write d2 ifc_path (FIfc m))
                end
              end
            end
          end
        end
      end
    end
  end.

End Processing.

(** ** The HTTP API (api.py) *)

(** [str.endswith]. *)
Definition py_endswith (s suffix : string) : bool :=
  (String.length suffix <=? String.length s)%nat &&
  String.eqb (substring (String.length s - String.length suffix) (String.length suffix) s)
             suffix.

(** A [tasks_storage] entry (lines 35-41). *)
Record task_record := mktask {
  t_id : string;
  t_filename : string;
  t_status : string;
  t_created_at : string;
  t_file_path : string }.

(** The module's state: [tasks_storage] and the files. *)
Record api_state := mkstate {
  tasks_storage : list (string * task_record);
  files : fs }.

(** The [detail] of an HTTPException; [ServerError] is the 500 response for
    an exception that is not one. *)
Inductive http_detail :=
| OnlyE57Supported        (* "Поддерживаются только .e57 файлы" *)
| TaskNotFound            (* "Задача не найдена" *)
| ModelNotCreatedYet      (* "Модель еще не создана" *)
| ModelNotFound           (* "Модель не найдена" *)
| IfcNotCreatedYet        (* "IFC файл еще не создан" *)
| ServerError.

Inductive http_result (A : Type) :=
| HOk (a : A)
| HError (status_code : Z) (detail : http_detail).
Arguments HOk {A} a.
Arguments HError {A} status_code detail.

(** The response dicts, without their constant [message]. *)
Record upload_response := mkupload_resp {
  ur_task_id : string; ur_filename : string; ur_status : string }.
Record process_response := mkprocess_resp { pr_task_id : string; pr_status : string }.
Record update_response := mkupdate_resp {
  upd_task_id : string; upd_updated_fields : list string }.
(** The FileResponse: served path, download name, media type. *)
Record file_response := mkfile_resp {
  fr_path : string; fr_filename : string; fr_media_type : string }.

(** [upload_file] (lines 15-48); [new_id] is [str(uuid.uuid4())] and [now]
    is [datetime.now().isoformat()]. *)
Definition upload_file (filename content new_id now : string) (st : api_state)
    : http_result upload_response * api_state :=
  if negb (py_endswith filename ".e57") then (HError 400 OnlyE57Supported, st)
  else
    let tid := new_id in
    let upload_path := upload_path_of tid in
    let files' := fs_write (files st) upload_path (FBytes content) in
    let tasks' := dict_set (tasks_storage st) tid
                    (mktask tid filename "uploaded" now upload_path) in
    (HOk (mkupload_resp tid filename "uploaded"), mkstate tasks' files').

(** [get_status] (lines 50-58). *)
Definition get_status (tid : string) (st : api_state) : http_result task_record :=
  match dict_get (tasks_storage st) tid with
  | None => HError 404 TaskNotFound
  | Some t => HOk t
  end.

(** [process_task] (lines 60-79). *)
Definition process_task (tid : string) (st : api_state)
    : http_result process_response * api_state :=
  match dict_get (tasks_storage st) tid with
  | None => (HError 404 TaskNotFound, st)
  | Some t =>
      let t' := mktask (t_id t) (t_filename t) "processing" (t_created_at t) (t_file_path t) in
      (HOk (mkprocess_resp tid "processing"), mkstate (dict_set (tasks_storage st) tid t') (files st))
  end.

(** [get_model] (lines 81-97).  Only [json.dump] writes under [models/], so
    a file there of another kind is taken as one [json.load] cannot parse. *)
Definition get_model (tid : string) (st : api_state) : http_result json :=
  match dict_get (tasks_storage st) tid with
  | None => HError 404 TaskNotFound
  | Some _ =>
      match fs_read (files st) (model_path_of tid) with
      | None => HError 404 ModelNotCreatedYet
      | Some (FJson j) => HOk j
      | Some _ => HError 500 ServerError
      end
  end.

(** [update_model] (lines 99-128); [updates] is the request's JSON object
    and [.update] exists only on a dict. *)
Definition update_model (tid : string) (updates : list (string * json)) (st : api_state)
    : http_result update_response * api_state :=
  match dict_get (tasks_storage st) tid with
  | None => (HError 404 TaskNotFound, st)
  | Some _ =>
      let model_path := model_path_of tid in
      match fs_read (files st) model_path with
      | None => (HError 404 ModelNotFound, st)
      | Some (FJson (JObj model_data)) =>
          let model_data' := dict_update model_data updates in
          (HOk (mkupdate_resp tid (map fst updates)),
           mkstate (tasks_storage st) (fs_write (files st) model_path (FJson (JObj model_data'))))
      | Some _ => (HError 500 ServerError, st)
      end
  end.

(** [export_ifc] (lines 130-148). *)
Definition export_ifc (tid : string) (st : api_state) : http_result file_response :=
  match dict_get (tasks_storage st) tid with
  | None => HError 404 TaskNotFound
  | Some t =>
      let ifc_path := ifc_path_of tid in
      match fs_read (files st) ifc_path with
      | None => HError 404 IfcNotCreatedYet
      | Some _ => HOk (mkfile_resp ifc_path (String.append (t_filename t) ".ifc")
                                   "application/x-step")
      end
  end.

(** Processors whose downsampled cloud is [exw10] and [exc]. *)
Definition proc_exw10 : processor := mkprocessor "t" (upload_path_of "t") None (Some exw10).

Definition proc_exc : processor := mkprocessor "t" (upload_path_of "t") None (Some exc).

(** A state with the task "t" uploaded as "scan.e57" and its model saved. *)
Definition task_t : task_record :=
  mktask "t" "scan.e57" "uploaded" "2024-01-01T00:00:00" (upload_path_of "t").

Definition state_t : api_state :=
  mkstate [("t", task_t)]%string
          [(upload_path_of "t", FBytes ""); (model_path_of "t", FJson (JObj [("task_id", JStr "t")]))]%string.

(** * Properties *)

From Stdlib Require Import Lqa.

(** ** Helper lemmas *)

Lemma Qltb_iff (a b : Q) : Qltb a b = true <-> a < b.
Proof.
  unfold Qltb. rewrite negb_true_iff.
  split; intro H.
  - apply Qnot_le_lt. intro H'. apply Qle_bool_iff in H'. congruence.
  - destruct (Qle_bool b a) eqn:E; [|reflexivity].
    apply Qle_bool_iff in E. exfalso. apply (Qlt_not_le a b); assumption.
Qed.

Lemma Qltb_false (a b : Q) : Qltb a b = false <-> b <= a.
Proof.
  unfold Qltb. rewrite negb_false_iff. apply Qle_bool_iff.
Qed.

Lemma fold_min_spec (xs : list Q) (acc : Q) :
  let r := fold_left (fun m y => if Qltb y m then y else m) xs acc in
  (r = acc \/ In r xs) /\ r <= acc /\ (forall y, In y xs -> r <= y).
Proof.
  revert acc; induction xs as [|x xs IH]; intro acc; simpl.
  - split; [left; reflexivity | split; [apply Qle_refl | tauto]].
  - destruct (Qltb x acc) eqn:E.
    + apply Qltb_iff in E.
      destruct (IH x) as [H1 [H2 H3]].
      split; [destruct H1; [right; left; congruence | right; right; assumption]|].
      split; [apply Qlt_le_weak; eapply Qle_lt_trans; eauto|].
      intros y [<-|Hy]; auto.
    + apply Qltb_false in E.
      destruct (IH acc) as [H1 [H2 H3]].
      split; [destruct H1; [left; assumption | right; right; assumption]|].
      split; [assumption|].
      intros y [<-|Hy]; [eapply Qle_trans; eauto | auto].
Qed.

Lemma fold_max_spec (xs : list Q) (acc : Q) :
  let r := fold_left (fun m y => if Qltb m y then y else m) xs acc in
  (r = acc \/ In r xs) /\ acc <= r /\ (forall y, In y xs -> y <= r).
Proof.
  revert acc; induction xs as [|x xs IH]; intro acc; simpl.
  - split; [left; reflexivity | split; [apply Qle_refl | tauto]].
  - destruct (Qltb acc x) eqn:E.
    + apply Qltb_iff in E.
      destruct (IH x) as [H1 [H2 H3]].
      split; [destruct H1; [right; left; congruence | right; right; assumption]|].
      split; [apply Qlt_le_weak; eapply Qlt_le_trans; eauto|].
      intros y [<-|Hy]; auto.
    + apply Qltb_false in E.
      destruct (IH acc) as [H1 [H2 H3]].
      split; [destruct H1; [left; assumption | right; right; assumption]|].
      split; [assumption|].
      intros y [<-|Hy]; [eapply Qle_trans; eauto | auto].
Qed.

Lemma py_min_spec (xs : list Q) (m : Q) :
  py_min xs = Ok m -> In m xs /\ forall y, In y xs -> m <= y.
Proof.
  destruct xs as [|x xs]; simpl; intro H; [discriminate|].
  injection H as <-.
  destruct (fold_min_spec xs x) as [H1 [H2 H3]].
  split; [destruct H1 as [->|H1]; [left; reflexivity | right; assumption]|].
  intros y [<-|Hy]; auto.
Qed.

Lemma py_max_spec (xs : list Q) (m : Q) :
  py_max xs = Ok m -> In m xs /\ forall y, In y xs -> y <= m.
Proof.
  destruct xs as [|x xs]; simpl; intro H; [discriminate|].
  injection H as <-.
  destruct (fold_max_spec xs x) as [H1 [H2 H3]].
  split; [destruct H1 as [->|H1]; [left; reflexivity | right; assumption]|].
  intros y [<-|Hy]; auto.
Qed.

Lemma py_min_ok (xs : list Q) : xs <> [] -> exists m, py_min xs = Ok m.
Proof. destruct xs; [congruence | eexists; reflexivity]. Qed.

Lemma py_max_ok (xs : list Q) : xs <> [] -> exists m, py_max xs = Ok m.
Proof. destruct xs; [congruence | eexists; reflexivity]. Qed.

(** The minimum of a list whose entries all equal [z] is [z]. *)
Lemma py_min_const (xs : list Q) (z : Q) :
  xs <> [] -> Forall (fun x => x = z) xs -> py_min xs = Ok z.
Proof.
  intros Hne Hall. destruct (py_min_ok xs Hne) as [m Hm].
  rewrite Hm. destruct (py_min_spec xs m Hm) as [Hin _].
  rewrite Forall_forall in Hall. rewrite (Hall m Hin). reflexivity.
Qed.

Lemma py_max_const (xs : list Q) (z : Q) :
  xs <> [] -> Forall (fun x => x = z) xs -> py_max xs = Ok z.
Proof.
  intros Hne Hall. destruct (py_max_ok xs Hne) as [m Hm].
  rewrite Hm. destruct (py_max_spec xs m Hm) as [Hin _].
  rewrite Forall_forall in Hall. rewrite (Hall m Hin). reflexivity.
Qed.

Lemma Qnum_sub_self (z : Q) : Qnum (z - z) = 0%Z.
Proof. destruct z as [n d]; simpl; ring. Qed.

(** [int((z - z) / s)] is 0, or raises when [s] is 0. *)
Lemma py_int_div_zero (z s : Q) :
  py_int_div (z - z) s = if Qeq_bool s 0 then Err ValueError else Ok 0%Z.
Proof.
  unfold py_int_div.
  assert (Hz : Qeq_bool (z - z) 0 = true).
  { apply Qeq_bool_iff. ring. }
  rewrite Hz. destruct (Qeq_bool s 0); [reflexivity|].
  unfold py_int, Qdiv, Qmult. cbn [Qnum].
  rewrite Qnum_sub_self. reflexivity.
Qed.

Lemma map_cons_ne {A B} (f : A -> B) (l : list A) : l <> [] -> map f l <> [].
Proof. destruct l; simpl; congruence. Qed.

Lemma Forall_map_pz (pc : list point) (z : Q) :
  Forall (fun p => pz p = z) pc -> Forall (fun x => x = z) (map pz pc).
Proof. intro H. apply Forall_map. exact H. Qed.

Lemma filter_above_const (pc : list point) (z t : Q) :
  Forall (fun p => pz p = z) pc -> z <= t ->
  filter (fun p => Qltb t (pz p)) pc = [].
Proof.
  intros Hall Hle. induction Hall as [|p pc Hp Hall IH]; [reflexivity|].
  simpl. rewrite Hp. assert (E : Qltb t z = false) by (apply Qltb_false; exact Hle).
  rewrite E. exact IH.
Qed.

(** ** Degenerate point samples *)

Lemma detect_walls_flat (pc : list point) (z grid_size : Q) :
  pc <> [] -> Forall (fun p => pz p = z) pc -> detect_walls pc grid_size = Ok [].
Proof.
  intros Hne Hall.
  unfold detect_walls, walls_setup.
  rewrite (py_min_const _ z (map_cons_ne _ _ Hne) (Forall_map_pz _ _ Hall)).
  rewrite (py_max_const _ z (map_cons_ne _ _ Hne) (Forall_map_pz _ _ Hall)).
  cbn [bind].
  rewrite (filter_above_const pc z); [reflexivity | exact Hall |].
  assert (H : z + (z - z) * (1#2) == z) by ring. rewrite H. apply Qle_refl.
Qed.

Lemma detect_columns_flat (pc : list point) (z grid_size : Q) :
  pc <> [] -> Forall (fun p => pz p = z) pc -> detect_columns pc grid_size = Ok [].
Proof.
  intros Hne Hall.
  unfold detect_columns, columns_setup.
  rewrite (py_min_const _ z (map_cons_ne _ _ Hne) (Forall_map_pz _ _ Hall)).
  rewrite (py_max_const _ z (map_cons_ne _ _ Hne) (Forall_map_pz _ _ Hall)).
  cbn [bind].
  assert (E : Qltb (z - z) 2 = true).
  { apply Qltb_iff. assert (H : z - z == 0) by ring. rewrite H. reflexivity. }
  rewrite E. reflexivity.
Qed.

(** C1 (corrected): an empty point sample makes each detector raise
    ValueError (numpy's min of an empty array); a non-empty point sample
    whose z coordinates are all equal makes detect_walls and detect_columns
    return an empty list without raising. *)
Theorem C1_empty_and_flat_samples :
  (forall s, detect_slabs [] s = Err ValueError /\
             detect_walls [] s = Err ValueError /\
             detect_columns [] s = Err ValueError) /\
  (forall (pc : list point) (z grid_size : Q),
     pc <> [] -> Forall (fun p => pz p = z) pc ->
     detect_walls pc grid_size = Ok [] /\ detect_columns pc grid_size = Ok []).
Proof.
  split.
  - intro s. repeat split; reflexivity.
  - intros pc z g Hne Hall. split.
    + apply (detect_walls_flat pc z); assumption.
    + apply (detect_columns_flat pc z); assumption.
Qed.

(** C1 refuted: on the empty point sample the detectors raise instead of
    returning an empty list. *)
Lemma C1_counterexample :
  detect_slabs [] (5#100) <> Ok [] /\ detect_walls [] (1#10) <> Ok [] /\
  detect_columns [] (5#10) <> Ok [].
Proof. repeat split; discriminate. Qed.

Lemma C1_witness :
  [mkpt 0 0 1; mkpt 2 3 1] <> [] /\ Forall (fun p => pz p = 1) [mkpt 0 0 1; mkpt 2 3 1] /\
  detect_walls [mkpt 0 0 1; mkpt 2 3 1] (1#10) = Ok [] /\
  detect_columns [mkpt 0 0 1; mkpt 2 3 1] (1#10) = Ok [].
Proof.
  assert (Hne : [mkpt 0 0 1; mkpt 2 3 1] <> []) by discriminate.
  assert (Hall : Forall (fun p => pz p = 1) [mkpt 0 0 1; mkpt 2 3 1])
    by (repeat constructor).
  split; [exact Hne | split; [exact Hall |]].
  apply (proj2 C1_empty_and_flat_samples _ 1 (1#10) Hne Hall).
Defined.

(** C4 (code bug): for a non-empty point sample whose points all lie at one
    elevation, [int((z_max - z_min) / z_step)] is 0 and [np.histogram] raises
    ValueError, for every [z_step]; no slab is returned. *)
Theorem C4_single_elevation_raises (pc : list point) (z z_step : Q) :
  pc <> [] -> Forall (fun p => pz p = z) pc ->
  detect_slabs pc z_step = Err ValueError.
Proof.
  intros Hne Hall. unfold detect_slabs.
  rewrite (py_min_const _ z (map_cons_ne _ _ Hne) (Forall_map_pz _ _ Hall)).
  rewrite (py_max_const _ z (map_cons_ne _ _ Hne) (Forall_map_pz _ _ Hall)).
  cbn [bind]. rewrite py_int_div_zero.
  destruct (Qeq_bool z_step 0); reflexivity.
Qed.

Lemma C4_witness :
  [mkpt 0 0 0] <> [] /\ Forall (fun p => pz p = 0) [mkpt 0 0 0] /\
  detect_slabs [mkpt 0 0 0] (5#100) = Err ValueError.
Proof.
  assert (Hne : [mkpt 0 0 0] <> []) by discriminate.
  assert (Hall : Forall (fun p => pz p = 0) [mkpt 0 0 0]) by (repeat constructor).
  split; [exact Hne | split; [exact Hall |]].
  apply (C4_single_elevation_raises _ 0 _ Hne Hall).
Defined.

(** ** The column cap *)

(** C5: when detect_columns returns, either it took the early exit (height
    range below 2.0) with no candidates, or the scan produced the raw
    candidate list [c]; more than 50 candidates are cut to the first 20 in
    scan order, at most 50 are returned unmodified.  So the result has at
    most 50 elements, and more than 20 only when it is the untruncated list. *)
Theorem C5_column_cap (pc : list point) (grid_size : Q) (r : list column) :
  detect_columns pc grid_size = Ok r ->
  (columns_setup pc grid_size = Ok None /\ r = []) \/
  (exists g, columns_setup pc grid_size = Ok (Some g) /\
     let c := column_scan g in
     ((50 < length c)%nat -> r = firstn 20 c /\ length r = 20%nat) /\
     ((length c <= 50)%nat -> r = c) /\
     (length r <= 50)%nat /\
     ((20 < length r)%nat -> r = c)).
Proof.
  unfold detect_columns.
  destruct (columns_setup pc grid_size) as [[g|]|e]; cbn [bind]; intro H.
  - right. exists g. split; [reflexivity|]. injection H as <-. cbv zeta.
    unfold cap_columns.
    destruct (Nat.ltb_spec 50 (length (column_scan g))) as [Hlt|Hge].
    + assert (Hl : length (firstn 20 (column_scan g)) = 20%nat)
        by (rewrite length_firstn; lia).
      repeat split; try lia; intros; rewrite ?Hl in *; lia.
    + repeat split; intros; try reflexivity; lia.
  - left. injection H as <-. split; reflexivity.
  - discriminate.
Qed.

Lemma C5_witness :
  exists r, detect_columns exc (5#10) = Ok r /\
  ((columns_setup exc (5#10) = Ok None /\ r = []) \/
   (exists g, columns_setup exc (5#10) = Ok (Some g) /\
     let c := column_scan g in
     ((50 < length c)%nat -> r = firstn 20 c /\ length r = 20%nat) /\
     ((length c <= 50)%nat -> r = c) /\
     (length r <= 50)%nat /\
     ((20 < length r)%nat -> r = c))).
Proof.
  eexists. split; [vm_compute; reflexivity|].
  apply C5_column_cap. vm_compute. reflexivity.
Defined.

(** ** Slab geometry *)

(** C7: every slab of the model handed to [generate] gets a rectangle profile
    of the x- and y-extent of the model's bounding box, an extrusion along
    +Z of depth the slab thickness, and a placement at the bounding box's
    center in x and y and the slab's elevation in z. *)
Theorem C7_slab_geometry (md : model_data) (geo : extrusion_geometry) :
  In geo (generate_slabs md) ->
  exists s, In s (el_slabs (md_elements md)) /\
    let b := md_bounds md in
    geo_profile geo = mkprofile (px (bmax b) - px (bmin b)) (py (bmax b) - py (bmin b)) /\
    geo_depth geo = slab_thickness s /\
    geo_extruded_direction geo = mkpt 0 0 1 /\
    geo_location geo = mkpt ((px (bmax b) + px (bmin b)) / 2)
                            ((py (bmax b) + py (bmin b)) / 2) (slab_z s).
Proof.
  unfold generate_slabs. rewrite in_map_iff.
  intros [s [<- Hin]]. exists s. split; [exact Hin|].
  repeat split.
Qed.

Lemma C7_witness :
  let md := mkmodel "t"%string 2 (mkelements [mkslab 1 (3#10)] [] [])
                    (mkbounds (mkpt 0 0 0) (mkpt 4 2 3)) in
  In (create_slab (mkslab 1 (3#10)) (md_bounds md)) (generate_slabs md) /\
  exists s, In s (el_slabs (md_elements md)) /\
    let b := md_bounds md in
    geo_profile (create_slab (mkslab 1 (3#10)) (md_bounds md))
      = mkprofile (px (bmax b) - px (bmin b)) (py (bmax b) - py (bmin b)) /\
    geo_depth (create_slab (mkslab 1 (3#10)) (md_bounds md)) = slab_thickness s /\
    geo_extruded_direction (create_slab (mkslab 1 (3#10)) (md_bounds md)) = mkpt 0 0 1 /\
    geo_location (create_slab (mkslab 1 (3#10)) (md_bounds md))
      = mkpt ((px (bmax b) + px (bmin b)) / 2) ((py (bmax b) + py (bmin b)) / 2) (slab_z s).
Proof.
  intro md. assert (H : In (create_slab (mkslab 1 (3#10)) (md_bounds md)) (generate_slabs md))
    by (simpl; left; reflexivity).
  split; [exact H | apply (C7_slab_geometry md _ H)].
Defined.

(** ** Determinism of the pipeline *)

(** C8: segmentation reads nothing but the processor's downsampled cloud,
    so two runs on the same cloud give the same elements (or the same
    error), and the assembled model has the same point count, elements and
    bounds. *)
Theorem C8_pipeline_deterministic (p1 p2 : processor) :
  downsampled_cloud p1 = downsampled_cloud p2 ->
  segment_building_elements p1 = segment_building_elements p2 /\
  res_map (fun m => (md_point_count m, md_elements m, md_bounds m)) (run_pipeline p1) =
  res_map (fun m => (md_point_count m, md_elements m, md_bounds m)) (run_pipeline p2).
Proof.
  intro H. unfold run_pipeline, segment_building_elements, assemble.
  rewrite H. split; [reflexivity|].
  destruct (downsampled_cloud p2) as [c|]; [|reflexivity].
  destruct (detect_slabs c (5#100)); [|reflexivity]. cbn [bind].
  destruct (detect_walls c (1#10)); [|reflexivity]. cbn [bind].
  destruct (detect_columns c (5#10)); reflexivity.
Qed.

Lemma C8_witness :
  let p1 := mkprocessor "a"%string "uploads/a.e57"%string None (Some exw) in
  let p2 := mkprocessor "b"%string "uploads/b.e57"%string (Some exc) (Some exw) in
  downsampled_cloud p1 = downsampled_cloud p2 /\
  segment_building_elements p1 = segment_building_elements p2 /\
  res_map (fun m => (md_point_count m, md_elements m, md_bounds m)) (run_pipeline p1) =
  res_map (fun m => (md_point_count m, md_elements m, md_bounds m)) (run_pipeline p2).
Proof.
  intros p1 p2. assert (H : downsampled_cloud p1 = downsampled_cloud p2) by reflexivity.
  split; [exact H | apply (C8_pipeline_deterministic p1 p2 H)].
Defined.

(** ** The column local-maximum test *)

(** C10: the local-maximum test is non-strict.  Every interior cell above
    the threshold whose count equals the maximum of its 3x3 neighbourhood
    gives a column; on [exc] the two neighbouring cells (1,1) and (2,1)
    hold the same count and detect_columns returns a column for each. *)
Theorem C10_non_strict_local_max :
  (forall (g : grid) (i j : nat),
     (1 <= i)%nat -> (i < g_nx g - 1)%nat -> (1 <= j)%nat -> (j < g_ny g - 1)%nat ->
     g_threshold g < nat2Q (h2_count (g_hist g) i j) ->
     h2_count (g_hist g) i j = neighbors_max (h2_count (g_hist g)) i j ->
     In (column_at g i j) (column_scan g)) /\
  (exists g, columns_setup exc (5#10) = Ok (Some g) /\
     h2_count (g_hist g) 1 1 = h2_count (g_hist g) 2 1 /\
     detect_columns exc (5#10) = Ok [column_at g 1 1; column_at g 2 1]).
Proof.
  split.
  - intros g i j Hi1 Hi2 Hj1 Hj2 Hthr Hmax.
    unfold column_scan. apply in_flat_map. exists i.
    split; [apply in_seq; lia|].
    apply in_flat_map. exists j. split; [apply in_seq; lia|].
    unfold column_cell.
    rewrite (proj2 (Qltb_iff _ _) Hthr), Hmax, Nat.eqb_refl.
    left; reflexivity.
  - eexists. split; [vm_compute; reflexivity|].
    split; vm_compute; reflexivity.
Qed.

Lemma C10_witness :
  exists g, columns_setup exc (5#10) = Ok (Some g) /\
    (1 <= 1)%nat /\ (1 < g_nx g - 1)%nat /\ (1 <= 1)%nat /\ (1 < g_ny g - 1)%nat /\
    g_threshold g < nat2Q (h2_count (g_hist g) 1 1) /\
    h2_count (g_hist g) 1 1 = neighbors_max (h2_count (g_hist g)) 1 1 /\
    In (column_at g 1 1) (column_scan g).
Proof.
  eexists. split; [vm_compute; reflexivity|].
  do 6 (split; [vm_compute; try reflexivity; lia|]).
  apply (proj1 C10_non_strict_local_max); vm_compute; first [reflexivity | lia].
Defined.

(** ** Structure of detect_walls *)

Lemma bind_ok {A B} (m : res A) (k : A -> res B) (b : B) :
  bind m k = Ok b -> exists a, m = Ok a /\ k a = Ok b.
Proof. destruct m; cbn; [eauto | discriminate]. Qed.

Ltac inv_bind H :=
  repeat match type of H with
  | bind ?m _ = Ok _ =>
      let a := fresh "v" in let Ha := fresh "Hv" in
      apply bind_ok in H; destruct H as [a [Ha H]]
  end.

Lemma emit_line_in (g : grid) (segs : list (Q * Q)) (w : wall) :
  In w (emit_line g segs) -> (5 < length segs)%nat /\ w = line_wall g segs.
Proof.
  unfold emit_line. destruct (Nat.ltb_spec 5 (length segs)); simpl; [|tauto].
  intros [<-|[]]. split; [assumption | reflexivity].
Qed.

(** Every wall of the scan is the wall of one grid line with more than five
    occupied cells. *)
Lemma wall_scan_in (g : grid) (w : wall) :
  In w (wall_scan g) ->
  exists segs,
    ((exists j, (j < g_ny g)%nat /\ segs = row_segments g j) \/
     (exists i, (i < g_nx g)%nat /\ segs = col_segments g i)) /\
    (5 < length segs)%nat /\ w = line_wall g segs.
Proof.
  unfold wall_scan. rewrite in_app_iff, !in_flat_map.
  intros [[j [Hj Hw]]|[i [Hi Hw]]]; apply emit_line_in in Hw; destruct Hw as [Hl ->].
  - apply in_seq in Hj. eexists; split; [left; exists j; split; [lia | reflexivity] | auto].
  - apply in_seq in Hi. eexists; split; [right; exists i; split; [lia | reflexivity] | auto].
Qed.

(** The grid of detect_walls, as built on lines 72-107. *)
Lemma walls_setup_some (pc : list point) (grid_size : Q) (g : grid) :
  walls_setup pc grid_size = Ok (Some g) ->
  exists z_min z_max wp x_min x_max y_min y_max xq yq,
    py_min (map pz pc) = Ok z_min /\ py_max (map pz pc) = Ok z_max /\
    g_zmin g = z_min /\ g_height g = z_max - z_min /\
    wp = filter (fun p => Qltb (z_min + (z_max - z_min) * (1#2)) (pz p)) pc /\
    py_min (map px wp) = Ok x_min /\ py_max (map px wp) = Ok x_max /\
    py_min (map py wp) = Ok y_min /\ py_max (map py wp) = Ok y_max /\
    py_int_div (x_max - x_min) grid_size = Ok xq /\
    py_int_div (y_max - y_min) grid_size = Ok yq /\
    g_nx g = Z.to_nat (xq + 1) /\ g_ny g = Z.to_nat (yq + 1) /\
    h2_xedges (g_hist g) =
      map (linspace_at (fst (data_range (map px wp))) (snd (data_range (map px wp))) (g_nx g))
          (seq 0 (S (g_nx g))) /\
    h2_yedges (g_hist g) =
      map (linspace_at (fst (data_range (map py wp))) (snd (data_range (map py wp))) (g_ny g))
          (seq 0 (S (g_ny g))).
Proof.
  unfold walls_setup. intro H. inv_bind H.
  destruct (filter _ pc) as [|p0 wp0] eqn:Ewp; [discriminate|].
  inv_bind H. injection H as <-.
  revert Hv7. unfold histogram2d.
  destruct ((_ <? 1) || (_ <? 1))%Z; [discriminate|].
  destruct (data_range (map px (p0 :: wp0))) as [xlo xhi] eqn:Ex.
  destruct (data_range (map py (p0 :: wp0))) as [ylo yhi] eqn:Ey.
  intro Hh; injection Hh as <-.
  exists v, v0, (p0 :: wp0), v1, v2, v3, v4, v5, v6.
  cbn [g_zmin g_height g_nx g_ny g_hist h2_xedges h2_yedges].
  rewrite Ex, Ey. cbn [fst snd]. repeat split; try assumption.
  symmetry; exact Ewp.
Qed.

Lemma detect_walls_in (pc : list point) (grid_size : Q) (r : list wall) (w : wall) :
  detect_walls pc grid_size = Ok r -> In w r ->
  exists g, walls_setup pc grid_size = Ok (Some g) /\ In w (wall_scan g).
Proof.
  unfold detect_walls. intro H. inv_bind H.
  destruct v as [g|]; injection H as <-; [|intros []].
  intro Hw. exists g. split; assumption.
Qed.

(** C9: both ends of every wall lie at the minimum z of the whole input,
    not at the bottom of the upper height band the grid is built from. *)
Theorem C9_wall_ends_at_input_z_min (pc : list point) (grid_size : Q)
    (r : list wall) (w : wall) :
  detect_walls pc grid_size = Ok r -> In w r ->
  exists z_min, py_min (map pz pc) = Ok z_min /\
    pz (wall_start w) = z_min /\ pz (wall_end w) = z_min.
Proof.
  intros H Hw. destruct (detect_walls_in _ _ _ _ H Hw) as [g [Hg Hin]].
  destruct (walls_setup_some _ _ _ Hg)
    as [z_min [z_max [wp [x_min [x_max [y_min [y_max [xq [yq
        [Hzmin [_ [Hgz _]]]]]]]]]]]].
  destruct (wall_scan_in _ _ Hin) as [segs [_ [_ ->]]].
  exists z_min. split; [exact Hzmin|]. unfold line_wall; cbn. split; exact Hgz.
Qed.

(** Witness of C9 on the six-point row [exw10] at the default grid size. *)
Lemma C9_witness :
  exists z_min, py_min (map pz exw10) = Ok z_min /\
    pz (wall_start (hd line_wall_dummy walls10)) = z_min /\
    pz (wall_end (hd line_wall_dummy walls10)) = z_min.
Proof.
  apply (C9_wall_ends_at_input_z_min exw10 (1#10) walls10 (hd line_wall_dummy walls10)).
  - vm_compute. reflexivity.
  - vm_compute. left. reflexivity.
Defined.

(** C3 (corrected): every wall comes from one grid line (a row [j] or a
    column [i] of the grid) with more than five occupied cells; its start
    and end are the first and last occupied-cell centers of that line, its
    thickness is 0.2, and its height is [z_max - z_min] of the whole input. *)
Theorem C3_wall_shape (pc : list point) (grid_size : Q) (r : list wall) (w : wall) :
  detect_walls pc grid_size = Ok r -> In w r ->
  exists z_min z_max g segs,
    py_min (map pz pc) = Ok z_min /\ py_max (map pz pc) = Ok z_max /\
    walls_setup pc grid_size = Ok (Some g) /\
    ((exists j, (j < g_ny g)%nat /\ segs = row_segments g j) \/
     (exists i, (i < g_nx g)%nat /\ segs = col_segments g i)) /\
    (5 < length segs)%nat /\
    (px (wall_start w), py (wall_start w)) = hd (0, 0) segs /\
    (px (wall_end w), py (wall_end w)) = last segs (0, 0) /\
    wall_height w = z_max - z_min /\ wall_thickness w = 2#10.
Proof.
  intros H Hw. destruct (detect_walls_in _ _ _ _ H Hw) as [g [Hg Hin]].
  destruct (walls_setup_some _ _ _ Hg)
    as [z_min [z_max [wp [x_min [x_max [y_min [y_max [xq [yq
        [Hzmin [Hzmax [Hgz [Hgh _]]]]]]]]]]]]].
  destruct (wall_scan_in _ _ Hin) as [segs [Hline [Hlen ->]]].
  exists z_min, z_max, g, segs.
  unfold line_wall; cbn.
  rewrite <- surjective_pairing, <- surjective_pairing.
  repeat split; assumption.
Qed.

Lemma C3_witness :
  detect_walls exw10 (1#10) = Ok walls10 /\ In (hd line_wall_dummy walls10) walls10 /\
  exists z_min z_max g segs,
    py_min (map pz exw10) = Ok z_min /\ py_max (map pz exw10) = Ok z_max /\
    walls_setup exw10 (1#10) = Ok (Some g) /\
    ((exists j, (j < g_ny g)%nat /\ segs = row_segments g j) \/
     (exists i, (i < g_nx g)%nat /\ segs = col_segments g i)) /\
    (5 < length segs)%nat /\
    (px (wall_start (hd line_wall_dummy walls10)), py (wall_start (hd line_wall_dummy walls10)))
      = hd (0, 0) segs /\
    (px (wall_end (hd line_wall_dummy walls10)), py (wall_end (hd line_wall_dummy walls10)))
      = last segs (0, 0) /\
    wall_height (hd line_wall_dummy walls10) = z_max - z_min /\
    wall_thickness (hd line_wall_dummy walls10) = 2#10.
Proof.
  assert (H : detect_walls exw10 (1#10) = Ok walls10) by (vm_compute; reflexivity).
  assert (Hin : In (hd line_wall_dummy walls10) walls10) by (vm_compute; left; reflexivity).
  split; [exact H | split; [exact Hin |]].
  apply (C3_wall_shape exw10 (1#10) walls10 _ H Hin).
Defined.

(** C3 refuted: on [exw10] the points above the height threshold all lie at
    z = 1, so their z range is 0, while the one wall has height 1. *)
Lemma C3_counterexample :
  exists w, detect_walls exw10 (1#10) = Ok [w] /\
    upper_band_z_range exw10 = Ok 0 /\ ~ (wall_height w == 0).
Proof.
  eexists. split; [vm_compute; reflexivity|].
  split; [vm_compute; reflexivity | vm_compute; discriminate].
Qed.

(** ** Wall lengths *)

(** A line with [m + 1] occupied cells spans at least [m] cells. *)
Lemma filter_seq_spread (f : nat -> bool) (n s m : nat) :
  length (filter f (seq s n)) = S m ->
  (hd 0 (filter f (seq s n)) + m <= last (filter f (seq s n)) 0)%nat /\
  (last (filter f (seq s n)) 0 < s + n)%nat.
Proof.
  revert s m; induction n as [|n IH]; intros s m Hlen; [discriminate|].
  cbn [seq filter] in *.
  destruct (f s) eqn:Efs.
  - destruct (filter f (seq (S s) n)) as [|x l] eqn:El.
    + cbn in Hlen |- *. injection Hlen as <-. lia.
    + cbn [length] in Hlen. injection Hlen as Hlen.
      destruct m as [|m]; [discriminate|].
      destruct (IH (S s) m) as [H1 H2]; [rewrite El; cbn; lia|].
      rewrite El in H1, H2.
      assert (Hx : (S s <= x)%nat).
      { assert (Hin : In x (seq (S s) n)).
        { apply (proj1 (filter_In f x _)). rewrite El. left; reflexivity. }
        apply in_seq in Hin. lia. }
      change (last (s :: x :: l) 0%nat) with (last (x :: l) 0%nat).
      cbn [hd] in *. lia.
  - destruct (IH (S s) m Hlen) as [H1 H2]. split; [exact H1 | lia].
Qed.

Lemma nth_map_seq {A} (f : nat -> A) (n i : nat) (d : A) :
  (i < n)%nat -> nth i (map f (seq 0 n)) d = f i.
Proof.
  intro Hi. rewrite (nth_indep _ d (f 0%nat)) by (rewrite length_map, length_seq; lia).
  rewrite map_nth, seq_nth by lia. reflexivity.
Qed.

Lemma hd_map {A B} (f : A -> B) (l : list A) (da : A) (db : B) :
  l <> [] -> hd db (map f l) = f (hd da l).
Proof. destruct l; [congruence | reflexivity]. Qed.

Lemma last_map {A B} (f : A -> B) (l : list A) (da : A) (db : B) :
  l <> [] -> last (map f l) db = f (last l da).
Proof.
  induction l as [|x l IH]; intro Hne; [congruence|].
  destruct l as [|y l]; [reflexivity|].
  change (last (map f (x :: y :: l)) db) with (last (map f (y :: l)) db).
  change (last (x :: y :: l) da) with (last (y :: l) da).
  apply IH. discriminate.
Qed.

Lemma py_int_floor (x : Q) : 0 <= x -> py_int x = Qfloor x.
Proof.
  destruct x as [n d]. unfold py_int, Qfloor, Qle. cbn. intro H.
  apply Z.quot_div_nonneg; lia.
Qed.

Lemma Qnum_sub_eq (a b : Q) : a == b -> Qnum (a - b) = 0%Z.
Proof.
  destruct a as [an ad], b as [bn bd]. unfold Qeq. cbn. intro H. lia.
Qed.

Lemma nat2Q_S (k : nat) : nat2Q (S k) == nat2Q k + 1.
Proof. unfold nat2Q. rewrite Nat2Z.inj_succ, <- Z.add_1_r, inject_Z_plus. reflexivity. Qed.

Lemma nat2Q_le (a b : nat) : (a <= b)%nat -> nat2Q a <= nat2Q b.
Proof. intro H. unfold nat2Q. rewrite <- Zle_Qle. lia. Qed.

Lemma linspace_at_eq (lo hi : Q) (n k : nat) :
  (k <= n)%nat -> (0 < n)%nat ->
  linspace_at lo hi n k == lo + nat2Q k * ((hi - lo) / nat2Q n).
Proof.
  intros Hk Hn. unfold linspace_at.
  destruct (Nat.eqb_spec k n) as [->|]; [|reflexivity].
  assert (Hn' : ~ nat2Q n == 0).
  { unfold nat2Q. intro E. change 0 with (inject_Z 0) in E.
    apply (proj1 (inject_Z_injective _ _)) in E. lia. }
  field. exact Hn'.
Qed.

Definition axis_edges (vs : list Q) (n : nat) : list Q :=
  map (linspace_at (fst (data_range vs)) (snd (data_range vs)) n) (seq 0 (S n)).

(** Along one axis of a grid with [int((vmax - vmin) / grid_size) + 1] cells,
    the centers of two cells at least five cells apart are at least
    [25/6 * grid_size] apart. *)
Lemma axis_spread (vs : list Q) (gs vmin vmax : Q) (q : Z) (i0 i1 : nat) :
  0 < gs -> py_min vs = Ok vmin -> py_max vs = Ok vmax ->
  py_int_div (vmax - vmin) gs = Ok q ->
  (i0 + 5 <= i1)%nat -> (i1 < Z.to_nat (q + 1))%nat ->
  (25#6) * gs <= cell_center (axis_edges vs (Z.to_nat (q + 1))) i1
                 - cell_center (axis_edges vs (Z.to_nat (q + 1))) i0.
Proof.
  intros Hg Hmin Hmax Hq H01 H1n. unfold axis_edges.
  assert (Hdr : data_range vs = outer_edges vmin vmax)
    by (unfold data_range; rewrite Hmin, Hmax; reflexivity).
  rewrite Hdr.
  assert (Hle : vmin <= vmax).
  { destruct (py_min_spec _ _ Hmin) as [Hin _].
    destruct (py_max_spec _ _ Hmax) as [_ Hall]. exact (Hall vmin Hin). }
  assert (Hg0 : Qeq_bool gs 0 = false).
  { apply not_true_iff_false. intro E. apply Qeq_bool_iff in E.
    rewrite E in Hg. discriminate. }
  assert (Hgnz : ~ gs == 0) by (intro E; rewrite E in Hg; apply (Qlt_irrefl 0); exact Hg).
  unfold py_int_div in Hq. rewrite Hg0 in Hq. injection Hq as Hq.
  unfold outer_edges. destruct (Qeq_bool vmin vmax) eqn:Eeq.
  - exfalso. apply Qeq_bool_iff in Eeq.
    assert (H0 : Qnum ((vmax - vmin) / gs) = 0%Z).
    { unfold Qdiv, Qmult. cbn [Qnum].
      rewrite Qnum_sub_eq by (symmetry; exact Eeq). reflexivity. }
    unfold py_int in Hq. rewrite H0 in Hq. cbn in Hq. subst q. cbn in H1n. lia.
  - cbn [fst snd].
    assert (Hlt : vmin < vmax).
    { destruct (Qle_lteq vmin vmax) as [H _]. destruct (H Hle) as [H'|H']; [exact H'|].
      apply Qeq_bool_iff in H'. congruence. }
    assert (Hpos : 0 <= (vmax - vmin) / gs).
    { apply Qle_shift_div_l; [exact Hg | lra]. }
    rewrite (py_int_floor _ Hpos) in Hq.
    assert (Hfl : inject_Z q <= (vmax - vmin) / gs) by (rewrite <- Hq; apply Qfloor_le).
    assert (Hq0 : (0 <= q)%Z).
    { rewrite <- Hq. change 0%Z with (Qfloor 0). apply Qfloor_resp_le. exact Hpos. }
    assert (HqR : inject_Z q * gs <= vmax - vmin).
    { assert (E : (vmax - vmin) / gs * gs == vmax - vmin)
        by (field; exact Hgnz).
      rewrite <- E. apply Qmult_le_compat_r; [exact Hfl | lra]. }
    set (n := Z.to_nat (q + 1)) in *.
    assert (HN : nat2Q n == inject_Z q + 1).
    { unfold nat2Q, n. rewrite Z2Nat.id by lia. rewrite inject_Z_plus. reflexivity. }
    assert (HN6 : 6 <= nat2Q n).
    { apply (nat2Q_le 6 n). lia. }
    assert (HNz : ~ nat2Q n == 0) by (intro E; rewrite E in HN6; lra).
    unfold cell_center. rewrite !nth_map_seq by lia.
    rewrite !linspace_at_eq by lia. rewrite !nat2Q_S.
    set (S := (vmax - vmin) / nat2Q n).
    assert (HS : S * nat2Q n == vmax - vmin) by (unfold S; field; exact HNz).
    assert (HI : nat2Q i0 + 5 <= nat2Q i1).
    { apply (Qle_trans _ (nat2Q (i0 + 5))); [|apply nat2Q_le; lia].
      unfold nat2Q. rewrite Nat2Z.inj_add, inject_Z_plus. apply Qle_refl. }
    assert (H1 : (nat2Q n - 1) * gs <= S * nat2Q n).
    { rewrite HS. setoid_replace (nat2Q n - 1) with (inject_Z q) by (rewrite HN; ring).
      exact HqR. }
    assert (H2 : 0 <= (nat2Q n - 6) * gs) by (apply Qmult_le_0_compat; lra).
    assert (HS5 : (5#6) * gs <= S).
    { apply (Qmult_le_r _ _ (nat2Q n)); [lra|]. nra. }
    match goal with |- _ <= ?e =>
      setoid_replace e with ((nat2Q i1 - nat2Q i0) * S) by field end.
    nra.
Qed.

Lemma wall_length_sq_eq (w : wall) :
  wall_length_sq w ==
  (px (wall_end w) - px (wall_start w)) * (px (wall_end w) - px (wall_start w)) +
  (py (wall_end w) - py (wall_start w)) * (py (wall_end w) - py (wall_start w)).
Proof. unfold wall_length_sq. ring. Qed.

(** The two ends of the wall of one grid line with more than five occupied
    cells: the centers of cells [i0] and [i1], at least five cells apart. *)
Lemma line_ends (g : grid) (f : nat -> bool) (n : nat) (c : nat -> Q * Q) :
  (5 < length (map c (filter f (seq 0 n))))%nat ->
  exists i0 i1, (i0 + 5 <= i1)%nat /\ (i1 < n)%nat /\
    hd (0, 0) (map c (filter f (seq 0 n))) = c i0 /\
    last (map c (filter f (seq 0 n))) (0, 0) = c i1.
Proof.
  rewrite length_map. intro Hlen.
  assert (Hne : filter f (seq 0 n) <> []) by (intro E; rewrite E in Hlen; cbn in Hlen; lia).
  destruct (length (filter f (seq 0 n))) as [|m] eqn:El; [lia|].
  destruct (filter_seq_spread f n 0 m El) as [H1 H2].
  exists (hd 0%nat (filter f (seq 0 n))), (last (filter f (seq 0 n)) 0%nat).
  split; [lia | split; [lia|]].
  split; [apply hd_map | apply last_map]; exact Hne.
Qed.

Lemma square_ge (d e gs : Q) :
  3#125 <= gs -> (25#6) * gs <= d -> e == 0 -> 1#100 <= d * d + e * e.
Proof.
  intros Hg Hd He. rewrite He.
  assert (H : 1#10 <= d) by lra. nra.
Qed.

(** C2 (corrected): detect_walls applies no length test of its own, but for
    every grid size of at least 0.024 (the default is 0.1) the ends of every
    wall it returns are at least 25/6 grid cells of size [grid_size] apart,
    so no wall is shorter than 0.1 and create_wall never discards one. *)
Theorem C2_walls_not_short (pc : list point) (grid_size : Q) (r : list wall) (w : wall) :
  3#125 <= grid_size ->
  detect_walls pc grid_size = Ok r -> In w r ->
  1#100 <= wall_length_sq w /\ wall_too_short w = false.
Proof.
  intros Hgs H Hw.
  assert (Hlen : 1#100 <= wall_length_sq w).
  { destruct (detect_walls_in _ _ _ _ H Hw) as [g [Hg Hin]].
    destruct (walls_setup_some _ _ _ Hg)
      as [z_min [z_max [wp [x_min [x_max [y_min [y_max [xq [yq
          [_ [_ [_ [_ [_ [Hxmin [Hxmax [Hymin [Hymax [Hxq [Hyq
          [Hnx [Hny [Hxe Hye]]]]]]]]]]]]]]]]]]]]]]].
    destruct (wall_scan_in _ _ Hin) as [segs [Hline [Hl ->]]].
    assert (Hg0 : 0 < grid_size) by lra.
    rewrite wall_length_sq_eq. unfold line_wall. cbn [wall_start wall_end px py].
    destruct Hline as [[j [Hj ->]]|[i [Hi ->]]].
    - unfold row_segments in *.
      destruct (line_ends g _ _ _ Hl) as [i0 [i1 [H01 [H1n [Hhd Hlast]]]]].
      rewrite Hhd, Hlast. unfold center_of. cbn [fst snd].
      apply (square_ge _ _ grid_size Hgs); [|ring].
      rewrite Hxe. fold (axis_edges (map px wp) (g_nx g)).
      rewrite Hnx in *.
      exact (axis_spread _ _ _ _ _ _ _ Hg0 Hxmin Hxmax Hxq H01 H1n).
    - unfold col_segments in *.
      destruct (line_ends g _ _ _ Hl) as [j0 [j1 [H01 [H1n [Hhd Hlast]]]]].
      rewrite Hhd, Hlast. unfold center_of. cbn [fst snd].
      rewrite Qplus_comm.
      apply (square_ge _ _ grid_size Hgs); [|ring].
      rewrite Hye. fold (axis_edges (map py wp) (g_ny g)).
      rewrite Hny in *.
      exact (axis_spread _ _ _ _ _ _ _ Hg0 Hymin Hymax Hyq H01 H1n). }
  split; [exact Hlen|].
  unfold wall_too_short. apply Qltb_false. exact Hlen.
Qed.

(** C2 refuted: with grid size 0.01 the six points of [exw] fill six cells
    of one row and detect_walls returns a wall of length 1/24 < 0.1; it is
    create_wall that discards it. *)
Lemma C2_counterexample :
  exists w, detect_walls exw (1#100) = Ok [w] /\
    wall_length_sq w < 1#100 /\ wall_too_short w = true.
Proof.
  eexists. split; [vm_compute; reflexivity|].
  split; vm_compute; reflexivity.
Qed.

Lemma C2_witness :
  3#125 <= 1#10 /\ detect_walls exw10 (1#10) = Ok walls10 /\
  In (hd line_wall_dummy walls10) walls10 /\
  1#100 <= wall_length_sq (hd line_wall_dummy walls10) /\
  wall_too_short (hd line_wall_dummy walls10) = false.
Proof.
  assert (Hg : 3#125 <= 1#10) by (vm_compute; discriminate).
  assert (H : detect_walls exw10 (1#10) = Ok walls10) by (vm_compute; reflexivity).
  assert (Hin : In (hd line_wall_dummy walls10) walls10) by (vm_compute; left; reflexivity).
  split; [exact Hg | split; [exact H | split; [exact Hin |]]].
  exact (C2_walls_not_short exw10 (1#10) walls10 _ Hg H Hin).
Defined.

(** ** Two slab elevations *)

(** The number of z coordinates equal to [v]. *)
Definition count_at (zs : list Q) (v : Q) : nat :=
  length (filter (fun z => Qeq_bool z v) zs).

Lemma seq_split (n : nat) :
  (2 <= n)%nat -> seq 0 n = 0%nat :: seq 1 (n - 2) ++ [(n - 1)%nat].
Proof.
  intro Hn. destruct n as [|[|m]]; [lia | lia |].
  replace (S (S m) - 2)%nat with m by lia. replace (S (S m) - 1)%nat with (S m) by lia.
  change (seq 0 (S (S m))) with (0%nat :: seq 1 (S m)). f_equal.
  rewrite seq_S. reflexivity.
Qed.

Ltac eqb_lia :=
  repeat match goal with
  | H : Nat.eqb _ _ = true |- _ => apply Nat.eqb_eq in H
  | H : Nat.eqb _ _ = false |- _ => apply Nat.eqb_neq in H
  end; lia.

Section TwoElevations.
Variables (a b : Q) (n : nat).
Hypothesis Hab : a < b.
Hypothesis Hn : (2 <= n)%nat.

Lemma bin_index_low : bin_index a b n a = 0%nat.
Proof.
  unfold bin_index. cbv zeta.
  assert (E : (a - a) / (b - a) * nat2Q n == 0)
    by (field; intro E; apply (Qlt_irrefl a); lra).
  rewrite (Qfloor_comp _ _ E). change (Qfloor 0) with 0%Z. cbn. destruct n; [lia | reflexivity].
Qed.

Lemma bin_index_high : bin_index a b n b = (n - 1)%nat.
Proof.
  unfold bin_index. cbv zeta.
  assert (E : (b - a) / (b - a) * nat2Q n == inject_Z (Z.of_nat n))
    by (unfold nat2Q; field; intro E; apply (Qlt_irrefl a); lra).
  rewrite (Qfloor_comp _ _ E), Qfloor_Z, Nat2Z.id, Nat.eqb_refl. reflexivity.
Qed.

Lemma bin_count_two (zs : list Q) (i : nat) :
  Forall (fun z => z = a \/ z = b) zs -> (i < n)%nat ->
  length (filter (fun x => Nat.eqb (bin_index a b n x) i) zs) =
  ((if Nat.eqb i 0 then count_at zs a else 0) +
   (if Nat.eqb i (n - 1) then count_at zs b else 0))%nat.
Proof.
  intros Hall Hi. unfold count_at.
  assert (Hba : Qeq_bool b a = false)
    by (apply not_true_iff_false; intro E; apply Qeq_bool_iff in E; rewrite E in Hab;
        apply (Qlt_irrefl a); exact Hab).
  assert (Haa : Qeq_bool a a = true) by (apply Qeq_bool_iff; reflexivity).
  assert (Hbb : Qeq_bool b b = true) by (apply Qeq_bool_iff; reflexivity).
  assert (Hab' : Qeq_bool a b = false)
    by (apply not_true_iff_false; intro E; apply Qeq_bool_iff in E; rewrite E in Hab;
        apply (Qlt_irrefl b); exact Hab).
  induction Hall as [|z zs Hz Hall IH]; [destruct (Nat.eqb i 0), (Nat.eqb i (n - 1)); reflexivity|].
  cbn [filter].
  destruct Hz as [->| ->].
  - rewrite bin_index_low, Haa, Hab', (Nat.eqb_sym 0 i).
    destruct (Nat.eqb i 0) eqn:E0; cbn [length]; rewrite IH, ?E0;
      destruct (Nat.eqb i (n - 1)) eqn:E1; cbn [count_at filter length]; rewrite ?Haa, ?Hab', ?Hba, ?Hbb; cbn [length]; eqb_lia.
  - rewrite bin_index_high, Hba, Hbb, (Nat.eqb_sym (n - 1) i).
    destruct (Nat.eqb i (n - 1)) eqn:E1; cbn [length]; rewrite IH, ?E1;
      destruct (Nat.eqb i 0) eqn:E0; cbn [count_at filter length]; rewrite ?Haa, ?Hab', ?Hba, ?Hbb; cbn [length]; eqb_lia.
Qed.
End TwoElevations.

Lemma max_nat_two (na nb k : nat) :
  max_nat (na :: repeat 0%nat k ++ [nb]) = Nat.max na nb.
Proof.
  unfold max_nat. cbn [fold_left]. rewrite fold_left_app.
  assert (H : forall m, fold_left Nat.max (repeat 0%nat k) m = m).
  { induction k as [|k IH]; intro m; [reflexivity|]. cbn. rewrite Nat.max_0_r. apply IH. }
  rewrite H. cbn. lia.
Qed.

Lemma flat_map_nil {A B} (f : A -> list B) (l : list A) :
  (forall x, In x l -> f x = []) -> flat_map f l = [].
Proof.
  induction l as [|x l IH]; intro H; [reflexivity|].
  cbn. rewrite (H x (or_introl eq_refl)). apply IH. intros y Hy. apply H. right; exact Hy.
Qed.

Lemma threshold_lt (m k : nat) : (3 * m < 10 * k)%nat -> nat2Q m * (3#10) < nat2Q k.
Proof. intro H. unfold nat2Q, Qlt. cbn. lia. Qed.

Lemma threshold_nonneg (m : nat) : nat2Q 0 <= nat2Q m * (3#10).
Proof. unfold nat2Q, Qle. cbn. lia. Qed.

Lemma min_of_two (zs : list Q) (a b m : Q) :
  a < b -> Forall (fun z => z = a \/ z = b) zs -> In a zs -> py_min zs = Ok m -> m = a.
Proof.
  intros Hab Hall Ha Hm. destruct (py_min_spec _ _ Hm) as [Hin Hle].
  rewrite Forall_forall in Hall. destruct (Hall m Hin) as [->| ->]; [reflexivity|].
  exfalso. specialize (Hle a Ha). apply (Qlt_not_le a b); assumption.
Qed.

Lemma max_of_two (zs : list Q) (a b m : Q) :
  a < b -> Forall (fun z => z = a \/ z = b) zs -> In b zs -> py_max zs = Ok m -> m = b.
Proof.
  intros Hab Hall Hb Hm. destruct (py_max_spec _ _ Hm) as [Hin Hle].
  rewrite Forall_forall in Hall. destruct (Hall m Hin) as [->| ->]; [|reflexivity].
  exfalso. specialize (Hle b Hb). apply (Qlt_not_le a b); assumption.
Qed.

Lemma nat2Q_pred (n : nat) : (1 <= n)%nat -> nat2Q (n - 1) == nat2Q n - 1.
Proof.
  intro H. unfold nat2Q. rewrite Nat2Z.inj_sub by lia.
  rewrite <- Z.add_opp_r, inject_Z_plus, inject_Z_opp. reflexivity.
Qed.

(** C6 (corrected): for points at exactly two elevations [a < b] at least
    0.35 apart, each elevation holding more than 0.3 times the larger of the
    two point counts, detect_slabs returns exactly two slabs of thickness
    0.3, at the centers of the first and the last histogram bin: half a bin
    width above [a] and half a bin width below [b], not at [a] and [b]. *)
Theorem C6_two_elevations (pc : list point) (a b : Q) :
  Forall (fun p => pz p = a \/ pz p = b) pc ->
  In a (map pz pc) -> In b (map pz pc) ->
  7#20 <= b - a ->
  (3 * Nat.max (count_at (map pz pc) a) (count_at (map pz pc) b)
     < 10 * count_at (map pz pc) a)%nat ->
  (3 * Nat.max (count_at (map pz pc) a) (count_at (map pz pc) b)
     < 10 * count_at (map pz pc) b)%nat ->
  exists s1 s2, detect_slabs pc (5#100) = Ok [s1; s2] /\
    slab_z s1 == a + slab_bin_width a b / 2 /\
    slab_z s2 == b - slab_bin_width a b / 2 /\
    slab_thickness s1 = 3#10 /\ slab_thickness s2 = 3#10.
Proof.
  intros Hall Ha Hb Hsep Hca Hcb.
  assert (Hallz : Forall (fun z => z = a \/ z = b) (map pz pc))
    by (apply Forall_map; exact Hall).
  set (zs := map pz pc) in *.
  assert (Hab : a < b) by lra.
  destruct (py_min_ok zs) as [m Hm]; [intro E; rewrite E in Ha; destruct Ha|].
  destruct (py_max_ok zs) as [M HM]; [intro E; rewrite E in Ha; destruct Ha|].
  pose proof (min_of_two _ _ _ _ Hab Hallz Ha Hm) as Em. subst m.
  pose proof (max_of_two _ _ _ _ Hab Hallz Hb HM) as EM. subst M.
  unfold detect_slabs. fold zs. rewrite Hm, HM. cbn [bind].
  set (k := py_int ((b - a) / (5#100))).
  assert (Hdiv : py_int_div (b - a) (5#100) = Ok k) by reflexivity.
  rewrite Hdiv. cbn [bind].
  assert (Hpos : 0 <= (b - a) / (5#100)) by (apply Qle_shift_div_l; [reflexivity | lra]).
  assert (Hk7 : (7 <= k)%Z).
  { unfold k. rewrite (py_int_floor _ Hpos).
    change 7%Z with (Qfloor 7). apply Qfloor_resp_le.
    apply Qle_shift_div_l; [reflexivity | lra]. }
  set (n := Z.to_nat k).
  assert (Hn7 : (7 <= n)%nat) by lia.
  assert (HnQ : nat2Q n == inject_Z k) by (unfold nat2Q, n; rewrite Z2Nat.id by lia; reflexivity).
  unfold histogram.
  assert (Hk1 : (k <? 1)%Z = false) by (apply Z.ltb_ge; lia).
  rewrite Hk1. fold n.
  assert (Hdr : data_range zs = (a, b)).
  { unfold data_range. rewrite Hm, HM. unfold outer_edges.
    assert (E : Qeq_bool a b = false).
    { apply not_true_iff_false. intro E. apply Qeq_bool_iff in E. rewrite E in Hab.
      apply (Qlt_irrefl b). exact Hab. }
    rewrite E. reflexivity. }
  rewrite Hdr. cbv beta iota zeta. cbn [bind fst snd].
  set (f := fun i => length (filter (fun x => Nat.eqb (bin_index a b n x) i) zs)).
  set (na := count_at zs a) in *. set (nb := count_at zs b) in *.
  assert (Hf : forall i, (i < n)%nat ->
             f i = ((if Nat.eqb i 0 then na else 0) + (if Nat.eqb i (n - 1) then nb else 0))%nat).
  { intros i Hi. exact (bin_count_two a b n Hab ltac:(lia) zs i Hallz Hi). }
  assert (E0n : Nat.eqb 0 (n - 1) = false) by (apply Nat.eqb_neq; lia).
  assert (En0 : Nat.eqb (n - 1) 0 = false) by (apply Nat.eqb_neq; lia).
  assert (Hf0 : f 0%nat = na) by (rewrite Hf by lia; rewrite E0n; cbn; lia).
  assert (Hf1 : f (n - 1)%nat = nb) by (rewrite Hf by lia; rewrite En0, Nat.eqb_refl; cbn; lia).
  assert (Hfm : forall i, In i (seq 1 (n - 2)) -> f i = 0%nat).
  { intros i Hi. apply in_seq in Hi. rewrite Hf by lia.
    replace (Nat.eqb i 0) with false by (symmetry; apply Nat.eqb_neq; lia).
    replace (Nat.eqb i (n - 1)) with false by (symmetry; apply Nat.eqb_neq; lia).
    reflexivity. }
  assert (Hhist : map f (seq 0 n) = na :: repeat 0%nat (n - 2) ++ [nb]).
  { rewrite (seq_split n) by lia. cbn [map]. rewrite map_app. cbn [map].
    rewrite Hf0, Hf1, (map_ext_in _ (fun _ => 0%nat) _ Hfm), map_const, length_seq.
    reflexivity. }
  assert (Hmax : max_nat (map f (seq 0 n)) = Nat.max na nb)
    by (rewrite Hhist; apply max_nat_two).
  rewrite Hmax.
  set (thr := nat2Q (Nat.max na nb) * (3#10)).
  assert (Hthr_a : Qltb thr (nat2Q na) = true) by (apply Qltb_iff, threshold_lt; exact Hca).
  assert (Hthr_b : Qltb thr (nat2Q nb) = true) by (apply Qltb_iff, threshold_lt; exact Hcb).
  assert (Hthr_0 : Qltb thr (nat2Q 0) = false) by (apply Qltb_false, threshold_nonneg).
  unfold slab_candidates.
  rewrite length_map, length_seq.
  set (hist := map f (seq 0 n)). set (edges := map (linspace_at a b n) (seq 0 (S n))).
  rewrite (seq_split n) by lia.
  cbn [flat_map]. rewrite flat_map_app. cbn [flat_map].
  rewrite (flat_map_nil _ (seq 1 (n - 2))).
  2:{ intros i Hi. unfold hist. rewrite (nth_map_seq f n i) by (apply in_seq in Hi; lia).
      rewrite (Hfm i Hi), Hthr_0. reflexivity. }
  replace (S (n - 1)) with n by lia.
  unfold hist, edges. rewrite !nth_map_seq by lia.
  rewrite Hf0, Hf1, Hthr_a, Hthr_b. cbn [app].
  assert (HN7 : 7 <= nat2Q n) by exact (nat2Q_le 7 n Hn7).
  assert (HNz : ~ nat2Q n == 0) by (intro E; rewrite E in HN7; lra).
  set (w := (b - a) / nat2Q n).
  assert (HwN : w * nat2Q n == b - a) by (unfold w; field; exact HNz).
  assert (L0 : linspace_at a b n 0 == a)
    by (rewrite linspace_at_eq by lia; change (nat2Q 0) with 0; ring).
  assert (L1 : linspace_at a b n 1 == a + w)
    by (rewrite linspace_at_eq by lia; change (nat2Q 1) with 1; unfold w; ring).
  assert (Ln1 : linspace_at a b n (n - 1) == a + (nat2Q n - 1) * w)
    by (rewrite linspace_at_eq by lia; rewrite nat2Q_pred by lia; reflexivity).
  assert (Ln : linspace_at a b n n = b) by (unfold linspace_at; rewrite Nat.eqb_refl; reflexivity).
  assert (Hw : slab_bin_width a b == w) by (unfold slab_bin_width, w; fold k; rewrite HnQ; reflexivity).
  assert (Hw0 : 0 <= w) by (unfold w; apply Qle_shift_div_l; lra).
  assert (Hgap : Qltb ((linspace_at a b n (n - 1) + linspace_at a b n n) / 2 -
                       (linspace_at a b n 0 + linspace_at a b n 1) / 2) (3#10) = false).
  { apply Qltb_false. rewrite L0, L1, Ln1, Ln.
    setoid_replace ((a + (nat2Q n - 1) * w + b) / 2 - (a + (a + w)) / 2)
      with ((1#2) * (b - a) + (1#2) * (w * nat2Q n) - w) by field.
    rewrite HwN. nra. }
  unfold group_slabs. cbn [group_loop last cand_z]. rewrite Hgap. cbn.
  eexists; eexists; split; [reflexivity|].
  unfold close_slab, mean. cbn [map fold_right length slab_z slab_thickness].
  change (nat2Q 1) with 1. cbn [cand_z].
  rewrite Hw, L0, L1, Ln1, Ln.
  split; [field | split; [|split; reflexivity]].
  assert (Hbw : b == w * nat2Q n + a) by (rewrite HwN; ring).
  rewrite Hbw. field.
Qed.

(** Witness of C6 on one floor point and one point at z = 1. *)
Lemma C6_witness :
  exists s1 s2, detect_slabs ex2 (5#100) = Ok [s1; s2] /\
    slab_z s1 == 0 + slab_bin_width 0 1 / 2 /\
    slab_z s2 == 1 - slab_bin_width 0 1 / 2 /\
    slab_thickness s1 = 3#10 /\ slab_thickness s2 = 3#10.
Proof.
  apply (C6_two_elevations ex2 0 1).
  - constructor; [left; reflexivity|constructor; [right; reflexivity|constructor]].
  - cbn. auto.
  - cbn. auto.
  - vm_compute. discriminate.
  - vm_compute. lia.
  - vm_compute. lia.
Defined.

(** C6 counterexample: two elevations 0.31 apart, one point each, give a
    single slab (the two bin centers are closer than 0.3); and for
    elevations 0 and 1 the first slab is not at the mean 0 of its cluster. *)
Lemma C6_counterexample :
  (exists s, detect_slabs ex031 (5#100) = Ok [s]) /\
  (forall s1 s2, detect_slabs ex2 (5#100) = Ok [s1; s2] -> ~ slab_z s1 == 0).
Proof.
  split.
  - eexists. vm_compute. reflexivity.
  - intros s1 s2 H. vm_compute in H. injection H as <- <-.
    vm_compute. discriminate.
Qed.

(** ** Order, spacing and range of the slabs *)

Lemma last_in {A} (l : list A) (d : A) : l <> [] -> In (last l d) l.
Proof.
  induction l as [|a t IH]; intro Hne; [congruence|].
  destruct t as [|b t]; [left; reflexivity|].
  change (last (a :: b :: t) d) with (last (b :: t) d).
  right. apply IH. discriminate.
Qed.

Lemma sorted_app_r (l1 l2 : list Q) : sorted_le (l1 ++ l2) -> sorted_le l2.
Proof. induction l1 as [|x l1 IH]; cbn; [auto | intros [_ H]; auto]. Qed.

Lemma sorted_app_l (l1 l2 : list Q) : sorted_le (l1 ++ l2) -> sorted_le l1.
Proof.
  induction l1 as [|x l1 IH]; cbn; [auto|]. intros [Hf H]. split; [|auto].
  rewrite Forall_app in Hf. tauto.
Qed.

Lemma sorted_app_cross (l1 l2 : list Q) :
  sorted_le (l1 ++ l2) -> forall x y, In x l1 -> In y l2 -> x <= y.
Proof.
  induction l1 as [|a l1 IH]; cbn; [tauto|]. intros [Hf H] x y [<-|Hx] Hy.
  - rewrite Forall_forall in Hf. apply Hf, in_or_app. right; exact Hy.
  - exact (IH H x y Hx Hy).
Qed.

Lemma sorted_hd_le (l : list Q) (d : Q) :
  sorted_le l -> forall x, In x l -> hd d l <= x.
Proof.
  destruct l as [|a t]; cbn; [tauto|]. intros [Hf _] x [<-|Hx]; [apply Qle_refl|].
  rewrite Forall_forall in Hf. exact (Hf x Hx).
Qed.

Lemma sorted_le_last (l : list Q) (d : Q) :
  sorted_le l -> forall x, In x l -> x <= last l d.
Proof.
  induction l as [|a t IH]; cbn; [tauto|]. intros [Hf Ht] x Hx.
  destruct t as [|b t'].
  - destruct Hx as [<-|[]]. apply Qle_refl.
  - change (last (a :: b :: t') d) with (last (b :: t') d).
    assert (Hl : In (last (b :: t') d) (b :: t')).
    { apply last_in. discriminate. }
    destruct Hx as [<-|Hx].
    + rewrite Forall_forall in Hf. exact (Hf _ Hl).
    + exact (IH Ht x Hx).
Qed.

Lemma sorted_map_filter_seq (f : nat -> Q) (p : nat -> bool) (n a : nat) :
  (forall i j, (a <= i)%nat -> (i < j)%nat -> (j < a + n)%nat -> f i <= f j) ->
  sorted_le (map f (filter p (seq a n))).
Proof.
  revert a; induction n as [|n IH]; intros a Hf; cbn; [exact I|].
  assert (IH' : sorted_le (map f (filter p (seq (S a) n)))).
  { apply IH. intros i j Hi Hij Hj. apply Hf; lia. }
  destruct (p a); [|exact IH']. cbn. split; [|exact IH'].
  apply Forall_forall. intros y Hy. apply in_map_iff in Hy.
  destruct Hy as [j [<- Hj]]. apply filter_In in Hj. destruct Hj as [Hj _].
  apply in_seq in Hj. apply Hf; lia.
Qed.

Lemma sum_bounds (l : list Q) (lo hi : Q) :
  Forall (fun x => lo <= x <= hi) l ->
  lo * nat2Q (length l) <= fold_right Qplus 0 l <= hi * nat2Q (length l).
Proof.
  induction 1 as [|x l [Hx1 Hx2] _ [IH1 IH2]]; cbn [length fold_right].
  - change (nat2Q 0) with 0. lra.
  - rewrite nat2Q_S. lra.
Qed.

Lemma nat2Q_pos (n : nat) : (0 < n)%nat -> 0 < nat2Q n.
Proof. intro H. unfold nat2Q. change 0 with (inject_Z 0). rewrite <- Zlt_Qlt. lia. Qed.

Lemma mean_bounds (l : list Q) (lo hi : Q) :
  l <> [] -> Forall (fun x => lo <= x <= hi) l -> lo <= mean l <= hi.
Proof.
  intros Hne Hall. destruct (sum_bounds l lo hi Hall) as [H1 H2].
  assert (Hl : 0 < nat2Q (length l)).
  { apply nat2Q_pos. destruct l; [congruence | cbn; lia]. }
  unfold mean. split.
  - apply Qle_shift_div_l; assumption.
  - apply Qle_shift_div_r; assumption.
Qed.

Lemma mean_sorted (l : list Q) (d : Q) :
  l <> [] -> sorted_le l -> hd d l <= mean l <= last l d.
Proof.
  intros Hne Hs. apply mean_bounds; [exact Hne|].
  apply Forall_forall. intros x Hx. split.
  - exact (sorted_hd_le l d Hs x Hx).
  - exact (sorted_le_last l d Hs x Hx).
Qed.

Definition dummy_slab : slab := mkslab 0 (3#10).

(** The grouping loop on candidates sorted by elevation: the slabs it
    closes are at least 0.3 apart, and the first one is not below the
    first candidate of the current group. *)
Lemma group_loop_spaced (rest current : list slab_candidate) :
  current <> [] -> sorted_le (map cand_z (current ++ rest)) ->
  group_loop current rest <> [] /\
  cand_z (hd dummy_cand current) <= slab_z (hd dummy_slab (group_loop current rest)) /\
  spaced (3#10) (map slab_z (group_loop current rest)).
Proof.
  revert current. induction rest as [|c rest IH]; intros current Hne Hs.
  - rewrite app_nil_r in Hs. cbn [group_loop].
    assert (Hl : (0 <? length current)%nat = true)
      by (apply Nat.ltb_lt; destruct current; [congruence | cbn; lia]).
    rewrite Hl. split; [discriminate|]. split; [|exact I].
    cbn [hd]. unfold close_slab; cbn [slab_z].
    rewrite <- (hd_map cand_z current dummy_cand 0 Hne).
    apply (mean_sorted _ 0); [apply map_cons_ne; exact Hne | exact Hs].
  - cbn [group_loop].
    destruct (Qltb (cand_z c - cand_z (last current dummy_cand)) (3#10)) eqn:Eg.
    + assert (Hne' : current ++ [c] <> []) by (destruct current; discriminate).
      assert (Hs' : sorted_le (map cand_z ((current ++ [c]) ++ rest)))
        by (rewrite <- app_assoc; exact Hs).
      destruct (IH (current ++ [c]) Hne' Hs') as [H1 [H2 H3]].
      split; [exact H1|]. split; [|exact H3].
      destruct current as [|c0 cur]; [congruence | exact H2].
    + apply Qltb_false in Eg.
      rewrite map_app in Hs.
      assert (Hs2 : sorted_le (map cand_z ([c] ++ rest))) by (exact (sorted_app_r _ _ Hs)).
      destruct (IH [c] ltac:(discriminate) Hs2) as [H1 [H2 H3]].
      cbn [hd] in H2.
      assert (Hcur : sorted_le (map cand_z current)) by (exact (sorted_app_l _ _ Hs)).
      destruct (mean_sorted (map cand_z current) 0 (map_cons_ne _ _ Hne) Hcur) as [Hm1 Hm2].
      rewrite (hd_map cand_z current dummy_cand 0 Hne) in Hm1.
      rewrite (last_map cand_z current dummy_cand 0 Hne) in Hm2.
      split; [discriminate|]. split.
      * cbn [hd]. unfold close_slab; cbn [slab_z]. exact Hm1.
      * cbn [map]. destruct (group_loop [c] rest) as [|s0 out] eqn:Eo; [congruence|].
        cbn [map spaced]. split; [|exact H3].
        unfold close_slab; cbn [slab_z]. cbn [hd] in H2. lra.
Qed.

Lemma group_loop_bounds (rest current : list slab_candidate) (lo hi : Q) :
  current <> [] -> Forall (fun c => lo <= cand_z c <= hi) (current ++ rest) ->
  Forall (fun s => lo <= slab_z s <= hi /\ slab_thickness s = 3#10) (group_loop current rest) /\
  (length (group_loop current rest) <= S (length rest))%nat.
Proof.
  revert current. induction rest as [|c rest IH]; intros current Hne Hall.
  - rewrite app_nil_r in Hall. cbn [group_loop].
    assert (Hl : (0 <? length current)%nat = true)
      by (apply Nat.ltb_lt; destruct current; [congruence | cbn; lia]).
    rewrite Hl. split; [|cbn; lia]. constructor; [|constructor].
    unfold close_slab; cbn [slab_z slab_thickness]. split; [|reflexivity].
    apply mean_bounds; [apply map_cons_ne; exact Hne|].
    apply Forall_map. exact Hall.
  - cbn [group_loop length].
    destruct (Qltb (cand_z c - cand_z (last current dummy_cand)) (3#10)).
    + assert (Hne' : current ++ [c] <> []) by (destruct current; discriminate).
      assert (Hall' : Forall (fun c => lo <= cand_z c <= hi) ((current ++ [c]) ++ rest))
        by (rewrite <- app_assoc; exact Hall).
      destruct (IH (current ++ [c]) Hne' Hall') as [H1 H2]. split; [exact H1 | lia].
    + rewrite Forall_app in Hall. destruct Hall as [Hcur Hrest].
      destruct (IH [c] ltac:(discriminate) Hrest) as [H1 H2].
      split; [|cbn [length]; lia].
      constructor; [|exact H1].
      unfold close_slab; cbn [slab_z slab_thickness]. split; [|reflexivity].
      apply mean_bounds; [apply map_cons_ne; exact Hne|].
      apply Forall_map. exact Hcur.
Qed.

Lemma slab_candidates_eq (hist : list nat) (edges : list Q) (thr : Q) :
  slab_candidates hist edges thr =
  map (fun i => mkcand (cell_center edges i) (nth i hist 0%nat))
      (filter (fun i => Qltb thr (nat2Q (nth i hist 0%nat))) (seq 0 (length hist))).
Proof.
  unfold slab_candidates. generalize (seq 0 (length hist)) as l.
  induction l as [|i l IH]; cbn; [reflexivity|].
  destruct (Qltb thr (nat2Q (nth i hist 0%nat))); cbn; rewrite IH; reflexivity.
Qed.

Lemma py_min_le_max (xs : list Q) (lo hi : Q) :
  py_min xs = Ok lo -> py_max xs = Ok hi -> lo <= hi.
Proof.
  intros H1 H2. destruct (py_min_spec _ _ H1) as [Hin _].
  destruct (py_max_spec _ _ H2) as [_ Hall]. exact (Hall lo Hin).
Qed.

(** What detect_slabs computed when it returns: a range [z_min < z_max],
    at least one bin, and the grouping of the histogram's candidates. *)
Lemma detect_slabs_ok (pc : list point) (z_step : Q) (r : list slab) :
  detect_slabs pc z_step = Ok r ->
  exists z_min z_max bins,
    py_min (map pz pc) = Ok z_min /\ py_max (map pz pc) = Ok z_max /\
    py_int_div (z_max - z_min) z_step = Ok bins /\ (1 <= bins)%Z /\ z_min < z_max /\
    let n := Z.to_nat bins in
    let hist := map (fun i => length (filter (fun x => Nat.eqb (bin_index z_min z_max n x) i)
                                             (map pz pc))) (seq 0 n) in
    r = group_slabs (slab_candidates hist (map (linspace_at z_min z_max n) (seq 0 (S n)))
                                     (nat2Q (max_nat hist) * (3#10))).
Proof.
  unfold detect_slabs. intro H. inv_bind H. injection H as <-.
  exists v, v0, v1.
  assert (Hle : v <= v0) by exact (py_min_le_max _ _ _ Hv Hv0).
  unfold histogram in Hv2. destruct (v1 <? 1)%Z eqn:Eb; [discriminate|].
  apply Z.ltb_ge in Eb.
  unfold data_range in Hv2. rewrite Hv, Hv0 in Hv2. unfold outer_edges in Hv2.
  destruct (Qeq_bool v v0) eqn:Eq.
  - exfalso. apply Qeq_bool_iff in Eq. unfold py_int_div in Hv1.
    destruct (Qeq_bool z_step 0); [discriminate|]. injection Hv1 as <-.
    unfold py_int, Qdiv, Qmult in Eb. cbn [Qnum] in Eb.
    rewrite (Qnum_sub_eq v0 v) in Eb by (symmetry; exact Eq). cbn in Eb. lia.
  - injection Hv2 as <-. cbn [fst snd].
    assert (Hlt : v < v0).
    { destruct (Qle_lteq v v0) as [Hc _]. destruct (Hc Hle) as [Hc'|Hc']; [exact Hc'|].
      apply Qeq_bool_iff in Hc'. congruence. }
    repeat split; try assumption.
Qed.

(** The center of bin [i] of [n] equal bins over [lo, hi]. *)
Lemma bin_center_eq (lo hi : Q) (n i : nat) :
  (i < n)%nat ->
  cell_center (map (linspace_at lo hi n) (seq 0 (S n))) i ==
  lo + (nat2Q i + (1#2)) * ((hi - lo) / nat2Q n).
Proof.
  intro Hi. unfold cell_center. rewrite !nth_map_seq by lia.
  rewrite !linspace_at_eq by lia. rewrite nat2Q_S. field.
  intro E. pose proof (nat2Q_pos n ltac:(lia)) as Hp. rewrite E in Hp. discriminate.
Qed.

Lemma fold_max_nat (l : list nat) (acc : nat) :
  (acc <= fold_left Nat.max l acc)%nat /\
  (forall x, In x l -> x <= fold_left Nat.max l acc)%nat /\
  (fold_left Nat.max l acc = acc \/ In (fold_left Nat.max l acc) l).
Proof.
  revert acc; induction l as [|y l IH]; intro acc; cbn.
  - split; [lia | split; [tauto | left; reflexivity]].
  - destruct (IH (Nat.max acc y)) as [H1 [H2 H3]].
    split; [lia|]. split.
    + intros x [<-|Hx]; [lia | auto].
    + destruct H3 as [H3|H3]; [|right; right; exact H3].
      rewrite H3. destruct (Nat.max_spec acc y) as [[_ ->]|[_ ->]];
        [right; left; reflexivity | left; reflexivity].
Qed.

Lemma max_nat_ge (l : list nat) (x : nat) : In x l -> (x <= max_nat l)%nat.
Proof. intro H. exact (proj1 (proj2 (fold_max_nat l 0)) x H). Qed.

Lemma max_nat_in (l : list nat) : l <> [] -> In (max_nat l) l.
Proof.
  destruct l as [|x t]; [congruence|]. intros _. unfold max_nat. cbn [fold_left].
  change (Nat.max 0 x) with x.
  destruct (proj2 (proj2 (fold_max_nat t x))) as [->|H]; [left; reflexivity | right; exact H].
Qed.

Lemma bin_index_lo (lo hi : Q) (n : nat) : (1 <= n)%nat -> bin_index lo hi n lo = 0%nat.
Proof.
  intro Hn. unfold bin_index. cbv zeta.
  assert (E : (lo - lo) / (hi - lo) * nat2Q n == 0)
    by (unfold Qdiv; ring).
  rewrite (Qfloor_comp _ _ E). change (Qfloor 0) with 0%Z. cbn.
  destruct n; [lia | reflexivity].
Qed.

Lemma group_loop_nonempty (rest current : list slab_candidate) :
  current <> [] -> group_loop current rest <> [].
Proof.
  revert current. induction rest as [|c rest IH]; intros current Hne; cbn [group_loop].
  - assert (Hl : (0 <? length current)%nat = true)
      by (apply Nat.ltb_lt; destruct current; [congruence | cbn; lia]).
    rewrite Hl. discriminate.
  - destruct (Qltb _ _); [apply IH; destruct current; discriminate | discriminate].
Qed.

Lemma spaced_nth (d : Q) (l : list Q) :
  spaced d l -> forall k, (S k < length l)%nat -> nth k l 0 + d <= nth (S k) l 0.
Proof.
  induction l as [|x t IH]; cbn [length]; intros Hs k Hk; [lia|].
  destruct t as [|y t']; [cbn in Hk; lia|].
  destruct Hs as [Hxy Hs]. destruct k as [|k]; [exact Hxy|].
  cbn [nth]. apply (IH Hs k). cbn in Hk |- *. lia.
Qed.

(** detect_slabs never succeeds with an empty result: every histogram
    that it can build has a bin holding the maximal count, which is above
    the threshold. *)
Theorem detect_slabs_nonempty (pc : list point) (z_step : Q) (r : list slab) :
  detect_slabs pc z_step = Ok r -> r <> [].
Proof.
  intro H. destruct (detect_slabs_ok _ _ _ H)
    as [z_min [z_max [bins [Hmin [Hmax [Hb [Hb1 [Hlt Hr]]]]]]]].
  cbv zeta in Hr. set (n := Z.to_nat bins) in *.
  assert (Hn : (1 <= n)%nat) by (unfold n; lia).
  set (cnt := fun i => length (filter (fun x => Nat.eqb (bin_index z_min z_max n x) i)
                                      (map pz pc))) in *.
  set (hist := map cnt (seq 0 n)) in *.
  assert (Hc0 : (1 <= cnt 0%nat)%nat).
  { unfold cnt. destruct (py_min_spec _ _ Hmin) as [Hin _].
    assert (Hf : In z_min (filter (fun x => Nat.eqb (bin_index z_min z_max n x) 0) (map pz pc))).
    { apply filter_In. split; [exact Hin|]. rewrite bin_index_lo by exact Hn. reflexivity. }
    destruct (filter _ (map pz pc)); [destruct Hf | cbn; lia]. }
  assert (HM : (1 <= max_nat hist)%nat).
  { eapply Nat.le_trans; [exact Hc0|]. apply max_nat_ge. unfold hist.
    apply in_map, in_seq. lia. }
  assert (Hne : hist <> []) by (unfold hist; destruct n; [lia | discriminate]).
  destruct (proj1 (in_map_iff _ _ _) (max_nat_in hist Hne)) as [i [Hi Hiin]].
  apply in_seq in Hiin.
  rewrite Hr, slab_candidates_eq.
  assert (Hsel : In i (filter (fun i => Qltb (nat2Q (max_nat hist) * (3#10)) (nat2Q (nth i hist 0%nat)))
                        (seq 0 (length hist)))).
  { apply filter_In. split; [apply in_seq; unfold hist; rewrite length_map, length_seq; lia|].
    unfold hist at 2. rewrite nth_map_seq by lia. rewrite Hi. apply Qltb_iff.
    pose proof (nat2Q_le 1 _ HM) as H1. change (nat2Q 1) with 1 in H1. lra. }
  destruct (filter _ (seq 0 (length hist))) as [|i0 rest]; [destruct Hsel|].
  cbn [map group_slabs]. apply group_loop_nonempty. discriminate.
Qed.

Lemma nat2Q_Z (b : Z) : (0 <= b)%Z -> nat2Q (Z.to_nat b) == inject_Z b.
Proof. intro H. unfold nat2Q. rewrite Z2Nat.id by exact H. reflexivity. Qed.

(** The candidates of detect_slabs: at most one per bin, sorted by
    elevation, each at a bin center, so at least half a bin width inside
    the range of the input's z coordinates. *)
Lemma detect_slabs_cands (pc : list point) (z_step : Q) (r : list slab) :
  detect_slabs pc z_step = Ok r ->
  exists z_min z_max bins cands,
    py_min (map pz pc) = Ok z_min /\ py_max (map pz pc) = Ok z_max /\
    py_int_div (z_max - z_min) z_step = Ok bins /\ (1 <= bins)%Z /\
    r = group_slabs cands /\ (length cands <= Z.to_nat bins)%nat /\
    sorted_le (map cand_z cands) /\
    Forall (fun c => z_min + (z_max - z_min) / inject_Z bins / 2 <= cand_z c <=
                     z_max - (z_max - z_min) / inject_Z bins / 2) cands.
Proof.
  intro H. destruct (detect_slabs_ok _ _ _ H)
    as [z_min [z_max [bins [Hmin [Hmax [Hb [Hb1 [Hlt Hr]]]]]]]].
  cbv zeta in Hr. set (n := Z.to_nat bins) in *.
  assert (Hn : (1 <= n)%nat) by (unfold n; lia).
  set (hist := map _ (seq 0 n)) in *.
  set (edges := map (linspace_at z_min z_max n) (seq 0 (S n))) in *.
  set (thr := nat2Q (max_nat hist) * (3#10)) in *.
  rewrite slab_candidates_eq in Hr.
  assert (Hlen : length hist = n) by (unfold hist; rewrite length_map, length_seq; reflexivity).
  rewrite Hlen in Hr.
  exists z_min, z_max, bins, (map (fun i => mkcand (cell_center edges i) (nth i hist 0%nat))
                                  (filter (fun i => Qltb thr (nat2Q (nth i hist 0%nat))) (seq 0 n))).
  do 5 (split; [assumption|]).
  assert (HnQ : nat2Q n == inject_Z bins) by (apply nat2Q_Z; lia).
  assert (HN : 0 < nat2Q n) by (apply nat2Q_pos; lia).
  set (w := (z_max - z_min) / nat2Q n).
  assert (Hw0 : 0 <= w) by (unfold w; apply Qle_shift_div_l; lra).
  assert (HwN : w * nat2Q n == z_max - z_min)
    by (unfold w; field; intro E; rewrite E in HN; discriminate).
  assert (Hc : forall i, (i < n)%nat -> cell_center edges i == z_min + (nat2Q i + (1#2)) * w)
    by (intros i Hi; apply bin_center_eq; exact Hi).
  split; [|split].
  - rewrite length_map. eapply Nat.le_trans; [apply filter_length_le|].
    rewrite length_seq. lia.
  - rewrite map_map. cbn [cand_z]. apply sorted_map_filter_seq.
    intros i j _ Hij Hj. rewrite (Hc i) by lia. rewrite (Hc j) by lia.
    assert (Hij' : nat2Q i <= nat2Q j) by (apply nat2Q_le; lia).
    assert (Hm : (nat2Q i + (1#2)) * w <= (nat2Q j + (1#2)) * w)
      by (apply Qmult_le_compat_r; [lra | exact Hw0]).
    lra.
  - apply Forall_forall. intros c Hcin. apply in_map_iff in Hcin.
    destruct Hcin as [i [<- Hi]]. apply filter_In in Hi. destruct Hi as [Hi _].
    apply in_seq in Hi. cbn [cand_z]. rewrite (Hc i) by lia.
    rewrite <- HnQ. fold w.
    assert (Hzmax : z_max == z_min + w * nat2Q n) by (rewrite HwN; ring).
    rewrite Hzmax.
    assert (Hi1 : nat2Q i + 1 <= nat2Q n) by (rewrite <- nat2Q_S; apply nat2Q_le; lia).
    assert (Hi0 : 0 <= nat2Q i) by (apply (nat2Q_le 0); lia).
    assert (H1 : 0 <= nat2Q i * w) by (apply Qmult_le_0_compat; assumption).
    assert (H2 : 0 <= (nat2Q n - 1 - nat2Q i) * w) by (apply Qmult_le_0_compat; lra).
    setoid_replace (w / 2) with ((1#2) * w) by field.
    split; nra.
Qed.

(** detect_slabs returns at most [int((z_max - z_min) / z_step)] slabs (one
    per histogram bin), each of thickness 0.3 and at an elevation at least
    half a bin width inside the range [z_min, z_max] of the input. *)
Lemma slabs_range_of (pc : list point) (z_step : Q) (r : list slab) :
  detect_slabs pc z_step = Ok r ->
  exists z_min z_max bins,
    py_min (map pz pc) = Ok z_min /\ py_max (map pz pc) = Ok z_max /\
    py_int_div (z_max - z_min) z_step = Ok bins /\
    (length r <= Z.to_nat bins)%nat /\
    forall s, In s r ->
      z_min + (z_max - z_min) / inject_Z bins / 2 <= slab_z s <=
        z_max - (z_max - z_min) / inject_Z bins / 2 /\
      slab_thickness s = 3#10.
Proof.
  intro H. destruct (detect_slabs_cands _ _ _ H)
    as [z_min [z_max [bins [cands [Hmin [Hmax [Hb [Hb1 [Hr [Hlen [_ Hall]]]]]]]]]]].
  exists z_min, z_max, bins. do 3 (split; [assumption|]).
  subst r. destruct cands as [|c0 rest]; [split; [cbn; lia | intros s []]|].
  cbn [group_slabs].
  destruct (group_loop_bounds rest [c0] _ _ ltac:(discriminate) Hall) as [Hf Hl].
  split; [cbn [length] in Hlen; lia|].
  intros s Hs. rewrite Forall_forall in Hf. exact (Hf s Hs).
Qed.

(** The slabs of detect_slabs: at most one per histogram bin, each 0.3
    thick and at least half a bin width inside [z_min, z_max]. *)
Theorem detect_slabs_range (pc : list point) (z_step : Q) (r : list slab) :
  detect_slabs pc z_step = Ok r ->
  exists z_min z_max bins,
    py_min (map pz pc) = Ok z_min /\ py_max (map pz pc) = Ok z_max /\
    py_int_div (z_max - z_min) z_step = Ok bins /\
    (length r <= Z.to_nat bins)%nat /\
    forall s, In s r ->
      z_min + (z_max - z_min) / inject_Z bins / 2 <= slab_z s <=
        z_max - (z_max - z_min) / inject_Z bins / 2 /\
      slab_thickness s = 3#10.
Proof. exact (slabs_range_of pc z_step r). Qed.

(** The slabs of detect_slabs come in increasing elevation, each at least
    0.3 above the previous one: the grouping only closes a slab when the
    next candidate is 0.3 or more above the last one of the group, and a
    group's mean lies between its first and its last candidate. *)
Theorem detect_slabs_spaced (pc : list point) (z_step : Q) (r : list slab) :
  detect_slabs pc z_step = Ok r ->
  forall k d, (S k < length r)%nat -> slab_z (nth k r d) + (3#10) <= slab_z (nth (S k) r d).
Proof.
  intro H. destruct (detect_slabs_cands _ _ _ H)
    as [z_min [z_max [bins [cands [_ [_ [_ [_ [Hr [_ [Hs _]]]]]]]]]]].
  intros k d Hk.
  assert (Hsp : spaced (3#10) (map slab_z r)).
  { subst r. destruct cands as [|c0 rest]; [exact I|].
    exact (proj2 (proj2 (group_loop_spaced rest [c0] ltac:(discriminate) Hs))). }
  rewrite (@nth_indep _ r k d dummy_slab) by lia.
  rewrite (@nth_indep _ r (S k) d dummy_slab) by lia.
  rewrite <- !(map_nth slab_z). cbn [slab_z dummy_slab].
  apply spaced_nth; [exact Hsp | rewrite length_map; exact Hk].
Qed.

Lemma py_int_nonpos (x : Q) : x <= 0 -> (py_int x <= 0)%Z.
Proof.
  destruct x as [n d]. unfold py_int, Qle. cbn [Qnum Qden]. intro H.
  assert (Hn : (n <= 0)%Z) by lia.
  rewrite <- (Z.opp_involutive n), Z.quot_opp_l by lia.
  pose proof (Z.quot_pos (- n) (Z.pos d) ltac:(lia) ltac:(lia)). lia.
Qed.

(** With a step [z_step <= 0] detect_slabs always raises: an empty sample
    has no minimum, a flat one gives [int(0 / z_step)] = 0 bins (or
    [0 / 0]), and otherwise the bin count [int((z_max - z_min) / z_step)] is
    not positive or is [int] of an infinite float. *)
Theorem detect_slabs_nonpositive_step (pc : list point) (z_step : Q) :
  z_step <= 0 -> exists e, detect_slabs pc z_step = Err e.
Proof.
  intro Hs. destruct (detect_slabs pc z_step) as [r|e] eqn:E; [|eauto].
  exfalso. destruct (detect_slabs_ok _ _ _ E)
    as [z_min [z_max [bins [_ [_ [Hb [Hb1 [Hlt _]]]]]]]].
  unfold py_int_div in Hb. destruct (Qeq_bool z_step 0) eqn:E0; [discriminate|].
  injection Hb as <-.
  assert (Hneg : z_step < 0).
  { destruct (Qle_lteq z_step 0) as [Hc _]. destruct (Hc Hs) as [Hc'|Hc']; [exact Hc'|].
    apply Qeq_bool_iff in Hc'. congruence. }
  assert (Hq : (z_max - z_min) / z_step <= 0).
  { assert (Hnz : ~ z_step == 0) by (intro Hc; rewrite Hc in Hneg; discriminate).
    setoid_replace ((z_max - z_min) / z_step) with (- ((z_max - z_min) / - z_step))
      by (field; exact Hnz).
    assert (0 <= (z_max - z_min) / - z_step) by (apply Qle_shift_div_l; lra).
    lra. }
  pose proof (py_int_nonpos _ Hq). lia.
Qed.

(** ** Orientation and height of the walls *)

(** The ends of every wall of detect_walls, for a positive grid size: a
    wall of a grid row runs along +x, one of a grid column along +y, and
    its ends are at least 25/6 cells apart. *)
Lemma wall_ends_oriented (pc : list point) (grid_size : Q) (r : list wall) (w : wall) :
  0 < grid_size -> detect_walls pc grid_size = Ok r -> In w r ->
  (py (wall_start w) = py (wall_end w) /\
   px (wall_start w) + (25#6) * grid_size <= px (wall_end w)) \/
  (px (wall_start w) = px (wall_end w) /\
   py (wall_start w) + (25#6) * grid_size <= py (wall_end w)).
Proof.
  intros Hg0 H Hw.
  destruct (detect_walls_in _ _ _ _ H Hw) as [g [Hg Hin]].
  destruct (walls_setup_some _ _ _ Hg)
    as [z_min [z_max [wp [x_min [x_max [y_min [y_max [xq [yq
        [_ [_ [_ [_ [_ [Hxmin [Hxmax [Hymin [Hymax [Hxq [Hyq
        [Hnx [Hny [Hxe Hye]]]]]]]]]]]]]]]]]]]]]]].
  destruct (wall_scan_in _ _ Hin) as [segs [Hline [Hl ->]]].
  unfold line_wall. cbn [wall_start wall_end px py].
  destruct Hline as [[j [Hj ->]]|[i [Hi ->]]].
  - left. unfold row_segments in *.
    destruct (line_ends g _ _ _ Hl) as [i0 [i1 [H01 [H1n [Hhd Hlast]]]]].
    rewrite Hhd, Hlast. unfold center_of. cbn [fst snd]. split; [reflexivity|].
    rewrite Hxe. fold (axis_edges (map px wp) (g_nx g)).
    rewrite Hnx in *.
    pose proof (axis_spread _ _ _ _ _ _ _ Hg0 Hxmin Hxmax Hxq H01 H1n). lra.
  - right. unfold col_segments in *.
    destruct (line_ends g _ _ _ Hl) as [j0 [j1 [H01 [H1n [Hhd Hlast]]]]].
    rewrite Hhd, Hlast. unfold center_of. cbn [fst snd]. split; [reflexivity|].
    rewrite Hye. fold (axis_edges (map py wp) (g_ny g)).
    rewrite Hny in *.
    pose proof (axis_spread _ _ _ _ _ _ _ Hg0 Hymin Hymax Hyq H01 H1n). lra.
Qed.

(** Every wall is axis-parallel and oriented: for a positive grid size,
    either both ends share their y and the end is at least 25/6 grid cells
    further along +x, or both share their x and the end is at least 25/6
    grid cells further along +y. *)
Theorem detect_walls_axis_aligned (pc : list point) (grid_size : Q) (r : list wall) (w : wall) :
  0 < grid_size -> detect_walls pc grid_size = Ok r -> In w r ->
  (py (wall_start w) = py (wall_end w) /\
   px (wall_start w) + (25#6) * grid_size <= px (wall_end w)) \/
  (px (wall_start w) = px (wall_end w) /\
   py (wall_start w) + (25#6) * grid_size <= py (wall_end w)).
Proof. exact (wall_ends_oriented pc grid_size r w). Qed.

(** Every wall of detect_walls has a positive height: some point lies above
    [z_min + 0.5 * (z_max - z_min)], so [z_max > z_min]. *)
Theorem detect_walls_height_positive (pc : list point) (grid_size : Q) (r : list wall) (w : wall) :
  detect_walls pc grid_size = Ok r -> In w r -> 0 < wall_height w.
Proof.
  intros H Hw. destruct (detect_walls_in _ _ _ _ H Hw) as [g [Hg Hin]].
  destruct (walls_setup_some _ _ _ Hg)
    as [z_min [z_max [wp [x_min [x_max [y_min [y_max [xq [yq
        [Hzmin [Hzmax [_ [Hgh [Hwp [Hxmin _]]]]]]]]]]]]]]].
  destruct (wall_scan_in _ _ Hin) as [segs [_ [_ ->]]].
  unfold line_wall. cbn [wall_height]. rewrite Hgh.
  destruct wp as [|p wp']; [discriminate|].
  assert (Hp : In p (filter (fun p => Qltb (z_min + (z_max - z_min) * (1#2)) (pz p)) pc))
    by (rewrite <- Hwp; left; reflexivity).
  apply filter_In in Hp. destruct Hp as [Hp Hlt]. apply Qltb_iff in Hlt.
  destruct (py_max_spec _ _ Hzmax) as [_ Hall].
  pose proof (Hall (pz p) (in_map pz pc p Hp)). lra.
Qed.

(** ** The columns *)

(** The grid of detect_columns, as built on lines 157-188. *)
Lemma columns_setup_some (pc : list point) (grid_size : Q) (g : grid) :
  columns_setup pc grid_size = Ok (Some g) ->
  exists z_min z_max x_min x_max y_min y_max xq yq,
    py_min (map pz pc) = Ok z_min /\ py_max (map pz pc) = Ok z_max /\
    2 <= z_max - z_min /\ g_zmin g = z_min /\ g_height g = z_max - z_min /\
    py_min (map px pc) = Ok x_min /\ py_max (map px pc) = Ok x_max /\
    py_min (map py pc) = Ok y_min /\ py_max (map py pc) = Ok y_max /\
    py_int_div (x_max - x_min) grid_size = Ok xq /\
    py_int_div (y_max - y_min) grid_size = Ok yq /\
    g_nx g = Z.to_nat (Z.min (xq + 1) 200) /\ g_ny g = Z.to_nat (Z.min (yq + 1) 200) /\
    h2_xedges (g_hist g) =
      map (linspace_at (fst (data_range (map px pc))) (snd (data_range (map px pc))) (g_nx g))
          (seq 0 (S (g_nx g))) /\
    h2_yedges (g_hist g) =
      map (linspace_at (fst (data_range (map py pc))) (snd (data_range (map py pc))) (g_ny g))
          (seq 0 (S (g_ny g))).
Proof.
  unfold columns_setup. intro H. inv_bind H.
  destruct (Qltb (v0 - v) 2) eqn:E2; [discriminate|]. apply Qltb_false in E2.
  inv_bind H. injection H as <-.
  revert Hv7. unfold histogram2d.
  destruct ((_ <? 1) || (_ <? 1))%Z; [discriminate|].
  destruct (data_range (map px pc)) as [xlo xhi] eqn:Ex.
  destruct (data_range (map py pc)) as [ylo yhi] eqn:Ey.
  intro Hh; injection Hh as <-.
  exists v, v0, v1, v2, v3, v4, v5, v6.
  cbn [g_zmin g_height g_nx g_ny g_hist h2_xedges h2_yedges].
  cbn [fst snd]. repeat split; assumption.
Qed.

Lemma cap_columns_in (l : list column) (c : column) : In c (cap_columns l) -> In c l.
Proof.
  unfold cap_columns. destruct (50 <? length l)%nat; [|auto].
  intro H. rewrite <- (firstn_skipn 20 l). apply in_or_app. left. exact H.
Qed.

Lemma column_scan_in (g : grid) (c : column) :
  In c (column_scan g) ->
  exists i j, (1 <= i)%nat /\ (i < g_nx g - 1)%nat /\ (1 <= j)%nat /\ (j < g_ny g - 1)%nat /\
    c = column_at g i j.
Proof.
  unfold column_scan. rewrite in_flat_map. intros [i [Hi Hc]].
  rewrite in_flat_map in Hc. destruct Hc as [j [Hj Hc]].
  apply in_seq in Hi, Hj. unfold column_cell in Hc.
  destruct (Qltb _ _); [|destruct Hc].
  destruct (Nat.eqb _ _); [|destruct Hc].
  destruct Hc as [<-|[]]. exists i, j. repeat split; lia.
Qed.

Lemma detect_columns_in (pc : list point) (grid_size : Q) (r : list column) (c : column) :
  detect_columns pc grid_size = Ok r -> In c r ->
  exists g i j, columns_setup pc grid_size = Ok (Some g) /\
    (1 <= i)%nat /\ (i < g_nx g - 1)%nat /\ (1 <= j)%nat /\ (j < g_ny g - 1)%nat /\
    c = column_at g i j.
Proof.
  unfold detect_columns. intro H. inv_bind H.
  destruct v as [g|]; injection H as <-; [|intros []].
  intro Hc. apply cap_columns_in, column_scan_in in Hc.
  destruct Hc as [i [j Hij]]. exists g, i, j. split; [exact Hv | exact Hij].
Qed.

(** Every column of detect_columns stands on the lowest point of the input,
    is as high as the whole z range of the input (at least 2.0) and has the
    fixed 0.4 by 0.4 footprint. *)
Lemma column_fields_of (pc : list point) (grid_size : Q) (r : list column) (c : column) :
  detect_columns pc grid_size = Ok r -> In c r ->
  exists z_min z_max, py_min (map pz pc) = Ok z_min /\ py_max (map pz pc) = Ok z_max /\
    2 <= z_max - z_min /\ col_height c = z_max - z_min /\ pz (col_position c) = z_min /\
    col_width c = 4#10 /\ col_depth c = 4#10.
Proof.
  intros H Hc. destruct (detect_columns_in _ _ _ _ H Hc) as [g [i [j [Hg [_ [_ [_ [_ ->]]]]]]]].
  destruct (columns_setup_some _ _ _ Hg)
    as [z_min [z_max [x_min [x_max [y_min [y_max [xq [yq
        [Hzmin [Hzmax [H2 [Hgz [Hgh _]]]]]]]]]]]]].
  exists z_min, z_max. unfold column_at. cbn.
  repeat split; assumption.
Qed.

(** Every column of detect_columns spans the whole z range of the input:
    its base is at z_min, its height z_max - z_min is at least 2, and its
    section is 0.4 by 0.4. *)
Theorem detect_columns_fields (pc : list point) (grid_size : Q) (r : list column) (c : column) :
  detect_columns pc grid_size = Ok r -> In c r ->
  exists z_min z_max, py_min (map pz pc) = Ok z_min /\ py_max (map pz pc) = Ok z_max /\
    2 <= z_max - z_min /\ col_height c = z_max - z_min /\ pz (col_position c) = z_min /\
    col_width c = 4#10 /\ col_depth c = 4#10.
Proof. exact (column_fields_of pc grid_size r c). Qed.

Lemma bin_center_within (lo hi : Q) (n i : nat) :
  lo <= hi -> (i < n)%nat ->
  lo <= cell_center (map (linspace_at lo hi n) (seq 0 (S n))) i <= hi.
Proof.
  intros Hle Hi. rewrite bin_center_eq by exact Hi.
  assert (HN : 0 < nat2Q n) by (apply nat2Q_pos; lia).
  set (w := (hi - lo) / nat2Q n).
  assert (Hw0 : 0 <= w) by (unfold w; apply Qle_shift_div_l; lra).
  assert (HwN : w * nat2Q n == hi - lo)
    by (unfold w; field; intro E; rewrite E in HN; discriminate).
  assert (Hi1 : nat2Q i + 1 <= nat2Q n) by (rewrite <- nat2Q_S; apply nat2Q_le; lia).
  assert (Hi0 : 0 <= nat2Q i) by (apply (nat2Q_le 0); lia).
  assert (H1 : 0 <= (nat2Q i + (1#2)) * w) by (apply Qmult_le_0_compat; lra).
  assert (H2 : 0 <= (nat2Q n - nat2Q i - (1#2)) * w) by (apply Qmult_le_0_compat; lra).
  split; nra.
Qed.

(** An interior cell of a column grid axis: the axis has at least three
    cells, so its values are not all equal and the cell's center lies in
    [vmin, vmax]. *)
Lemma axis_center_inside (vs : list Q) (gs vmin vmax : Q) (q : Z) (i : nat) :
  py_min vs = Ok vmin -> py_max vs = Ok vmax -> py_int_div (vmax - vmin) gs = Ok q ->
  (1 <= i)%nat -> (i < Z.to_nat (Z.min (q + 1) 200) - 1)%nat ->
  vmin <= cell_center (map (linspace_at (fst (data_range vs)) (snd (data_range vs))
                                        (Z.to_nat (Z.min (q + 1) 200)))
                           (seq 0 (S (Z.to_nat (Z.min (q + 1) 200))))) i <= vmax.
Proof.
  intros Hmin Hmax Hq Hi1 Hi2.
  assert (Hle : vmin <= vmax) by exact (py_min_le_max _ _ _ Hmin Hmax).
  assert (Hdr : data_range vs = outer_edges vmin vmax)
    by (unfold data_range; rewrite Hmin, Hmax; reflexivity).
  rewrite Hdr. unfold outer_edges.
  destruct (Qeq_bool vmin vmax) eqn:Eq.
  - exfalso. apply Qeq_bool_iff in Eq. unfold py_int_div in Hq.
    destruct (Qeq_bool gs 0); [discriminate|]. injection Hq as <-.
    unfold py_int, Qdiv, Qmult in Hi2. cbn [Qnum] in Hi2.
    rewrite (Qnum_sub_eq vmax vmin) in Hi2 by (symmetry; exact Eq). cbn in Hi2. lia.
  - cbn [fst snd]. apply bin_center_within; [exact Hle | lia].
Qed.

(** Every column of detect_columns stands inside the x-y bounding box of
    the input: a column needs an interior cell, so each axis has three or
    more cells and the grid spans exactly [x_min, x_max] by [y_min, y_max]. *)
Lemma column_inside_of (pc : list point) (grid_size : Q) (r : list column) (c : column) :
  detect_columns pc grid_size = Ok r -> In c r ->
  exists x_min x_max y_min y_max,
    py_min (map px pc) = Ok x_min /\ py_max (map px pc) = Ok x_max /\
    py_min (map py pc) = Ok y_min /\ py_max (map py pc) = Ok y_max /\
    x_min <= px (col_position c) <= x_max /\ y_min <= py (col_position c) <= y_max.
Proof.
  intros H Hc. destruct (detect_columns_in _ _ _ _ H Hc)
    as [g [i [j [Hg [Hi1 [Hi2 [Hj1 [Hj2 ->]]]]]]]].
  destruct (columns_setup_some _ _ _ Hg)
    as (z_min & z_max & x_min & x_max & y_min & y_max & xq & yq & _ & _ & _ & _ & _ &
        Hxmin & Hxmax & Hymin & Hymax & Hxq & Hyq & Hnx & Hny & Hxe & Hye).
  exists x_min, x_max, y_min, y_max. do 4 (split; [assumption|]).
  unfold column_at, center_of. cbn [col_position px py fst snd].
  rewrite Hxe, Hye. rewrite Hnx in Hi2 |- *. rewrite Hny in Hj2 |- *.
  split.
  - exact (axis_center_inside _ _ _ _ _ _ Hxmin Hxmax Hxq Hi1 Hi2).
  - exact (axis_center_inside _ _ _ _ _ _ Hymin Hymax Hyq Hj1 Hj2).
Qed.

(** Every column of detect_columns stands inside the x and y range of the
    input points. *)
Theorem detect_columns_inside (pc : list point) (grid_size : Q) (r : list column) (c : column) :
  detect_columns pc grid_size = Ok r -> In c r ->
  exists x_min x_max y_min y_max,
    py_min (map px pc) = Ok x_min /\ py_max (map px pc) = Ok x_max /\
    py_min (map py pc) = Ok y_min /\ py_max (map py pc) = Ok y_max /\
    x_min <= px (col_position c) <= x_max /\ y_min <= py (col_position c) <= y_max.
Proof. exact (column_inside_of pc grid_size r c). Qed.

(** ** The bounds of the saved model *)

Lemma fold_bound_min (xs : list Q) : xs <> [] -> py_min xs = Ok (fold_bound Qltb xs).
Proof. destruct xs; [congruence | reflexivity]. Qed.

Lemma fold_bound_max (xs : list Q) :
  xs <> [] -> py_max xs = Ok (fold_bound (fun y m => Qltb m y) xs).
Proof. destruct xs; [congruence | reflexivity]. Qed.

Lemma bound_coord (f : point -> Q) (c : list point) :
  c <> [] ->
  In (fold_bound Qltb (map f c)) (map f c) /\
  In (fold_bound (fun y m => Qltb m y) (map f c)) (map f c) /\
  forall q, In q c ->
    fold_bound Qltb (map f c) <= f q <= fold_bound (fun y m => Qltb m y) (map f c).
Proof.
  intro Hc. assert (Hne : map f c <> []) by (destruct c; [congruence | discriminate]).
  destruct (py_min_spec _ _ (fold_bound_min _ Hne)) as [H1 H2].
  destruct (py_max_spec _ _ (fold_bound_max _ Hne)) as [H3 H4].
  split; [exact H1 | split; [exact H3 |]].
  intros q Hq. pose proof (in_map f _ _ Hq). split; auto.
Qed.

Lemma bound_coord_le (f : point -> Q) (c : list point) (q : point) :
  In q c -> fold_bound Qltb (map f c) <= f q <= fold_bound (fun y m => Qltb m y) (map f c).
Proof.
  intro Hq. apply (bound_coord f c); [destruct c; [contradiction | discriminate] | exact Hq].
Qed.

Lemma assemble_ok (self : processor) (els : elements) (md : model_data) :
  assemble self els = Ok md ->
  exists c, downsampled_cloud self = Some c /\
    md = mkmodel (task_id self) (length c) els (mkbounds (get_min_bound c) (get_max_bound c)).
Proof.
  unfold assemble. destruct (downsampled_cloud self) as [c|]; intro H; [|discriminate].
  injection H as <-. eauto.
Qed.

(** The ['bounds'] save_model_data writes for the downsampled cloud is the
    tightest box around it: every point lies inside, and each face passes
    through a point of a non-empty cloud; ['point_count'] is the cloud's
    size. *)
Theorem save_model_bounds_box (self : processor) (els : elements) (md : model_data) :
  assemble self els = Ok md ->
  exists c, downsampled_cloud self = Some c /\ md_point_count md = length c /\
    let b := md_bounds md in
    (forall q, In q c ->
       px (bmin b) <= px q <= px (bmax b) /\ py (bmin b) <= py q <= py (bmax b) /\
       pz (bmin b) <= pz q <= pz (bmax b)) /\
    (c <> [] ->
       In (px (bmin b)) (map px c) /\ In (px (bmax b)) (map px c) /\
       In (py (bmin b)) (map py c) /\ In (py (bmax b)) (map py c) /\
       In (pz (bmin b)) (map pz c) /\ In (pz (bmax b)) (map pz c)).
Proof.
  intro H. destruct (assemble_ok _ _ _ H) as [c [Hc ->]].
  exists c. split; [exact Hc | split; [reflexivity |]]. cbv zeta; simpl.
  split.
  - intros q Hq. repeat split; apply (bound_coord_le _ c q Hq).
  - intro Hne.
    destruct (bound_coord px c Hne) as [Hx1 [Hx2 _]].
    destruct (bound_coord py c Hne) as [Hy1 [Hy2 _]].
    destruct (bound_coord pz c Hne) as [Hz1 [Hz2 _]].
    tauto.
Qed.

(** ** The products of generate *)

Lemma map_all_some {A B} (f : A -> option B) (g : A -> B) (xs : list A) :
  (forall x, In x xs -> f x = Some (g x)) -> map_all f xs = Some (map g xs).
Proof.
  induction xs as [|x xs IH]; intro H; [reflexivity|]. simpl.
  rewrite (H x (or_introl eq_refl)), IH; [reflexivity|].
  intros y Hy. apply H. right. exact Hy.
Qed.

Lemma structure_has_ground (k : nat) : storey_lookup (create_ifc_structure k) 0 <> None.
Proof.
  unfold create_ifc_structure. destruct (1 <? k)%nat eqn:E; [|discriminate].
  apply Nat.ltb_lt in E. destruct k as [|k]; [lia|]. discriminate.
Qed.

Lemma structure_keys (k : nat) : map fst (create_ifc_structure k) = seq 0 (Nat.max 1 k).
Proof.
  unfold create_ifc_structure. destruct (Nat.ltb_spec 1 k) as [Hk|Hk].
  - rewrite Nat.max_r by lia. rewrite map_map. simpl. apply map_id.
  - rewrite Nat.max_l by lia. reflexivity.
Qed.

(** The products of a wall of the model. *)
Lemma create_wall_zero (st : list (nat * string)) (w : wall) :
  storey_lookup st 0 <> None ->
  create_wall st w =
  Some (if wall_too_short w then mkproduct IfcWall None None
        else mkproduct IfcWall
               (Some (WallSolid (mkwallbody (wall_length_sq w) (wall_thickness w)
                  (mkpt 0 (- wall_thickness w / 2) 0) (wall_height w)
                  (mkpt (px (wall_start w)) (py (wall_start w)) (pz (wall_start w)))
                  (px (wall_end w) - px (wall_start w), py (wall_end w) - py (wall_start w)))))
               (Some 0%nat)).
Proof.
  intro H. unfold create_wall, target_storey.
  destruct (wall_too_short w); [reflexivity|].
  destruct (storey_lookup st 0); [reflexivity | congruence].
Qed.

(** generate creates one entity per element of the model, slabs first, then
    walls, then columns. *)
Lemma generate_spec (md : model_data) (n : nat) :
  let st := create_ifc_structure (if Nat.eqb n 0 then 1%nat else n) in
  let els := md_elements md in
  generate md n =
  Some (ifc_path_of (md_task_id md),
        mkifc st
          (map (fun s => mkproduct IfcSlab (Some (SweptSolid (create_slab s (md_bounds md))))
                                   (Some 0%nat)) (el_slabs els) ++
           map (fun w => match create_wall st w with
                         | Some p => p
                         | None => mkproduct IfcWall None None
                         end) (el_walls els) ++
           map (fun c => mkproduct IfcColumn (Some (SweptSolid (column_geometry c))) (Some 0%nat))
               (el_columns els))).
Proof.
  intros st els. unfold generate. fold st. fold els.
  pose proof (structure_has_ground (if Nat.eqb n 0 then 1%nat else n)) as H0. fold st in H0.
  rewrite (map_all_some _ (fun s => mkproduct IfcSlab (Some (SweptSolid (create_slab s (md_bounds md))))
                                               (Some 0%nat))).
  2:{ intros s _. unfold create_slab_product. destruct (storey_lookup st 0); [reflexivity | congruence]. }
  rewrite (map_all_some _ (fun w => match create_wall st w with
                                    | Some p => p
                                    | None => mkproduct IfcWall None None
                                    end)).
  2:{ intros w _. rewrite (create_wall_zero st w H0). reflexivity. }
  rewrite (map_all_some _ (fun c => mkproduct IfcColumn (Some (SweptSolid (column_geometry c))) (Some 0%nat))).
  2:{ intros c _. unfold create_column, target_storey.
      destruct (storey_lookup st 0); [reflexivity | congruence]. }
  reflexivity.
Qed.

Lemma generate_some (md : model_data) (n : nat) :
  exists m, generate md n = Some (ifc_path_of (md_task_id md), m).
Proof. eexists. apply generate_spec. Qed.

(** generate never raises: the storey key 0 it contains every element in
    always exists.  The storeys are keyed 0, 1, ..., one per entry of the
    model's ['storeys'] list and at least one, and a model with at most one
    storey gets the single "Ground Floor". *)
Theorem generate_storeys (md : model_data) (n : nat) :
  exists m, generate md n = Some (ifc_path_of (md_task_id md), m) /\
    map fst (ifc_storeys m) = seq 0 (Nat.max 1 n) /\
    ((n <= 1)%nat -> ifc_storeys m = [(0%nat, "Ground Floor"%string)]).
Proof.
  eexists. split; [apply generate_spec|]. simpl. rewrite structure_keys. split.
  - destruct n as [|n]; reflexivity.
  - intro Hn. destruct n as [|[|n]]; [reflexivity | reflexivity | lia].
Qed.

Lemma map_const_repeat {A B} (f : A -> B) (b : B) (l : list A) :
  (forall x, f x = b) -> map f l = repeat b (length l).
Proof. intro H. induction l as [|x l IH]; simpl; [reflexivity | rewrite H, IH; reflexivity]. Qed.

(** The entities of generate: one IfcSlab per slab, one IfcWall per wall,
    one IfcColumn per column, in this order.  Each one has geometry and is
    contained in storey 0, except that a wall shorter than 0.1 leaves an
    IfcWall without geometry or storey: there are exactly as many of those as
    walls shorter than 0.1. *)
Theorem generate_products (md : model_data) (n : nat) :
  exists m, generate md n = Some (ifc_path_of (md_task_id md), m) /\
    let els := md_elements md in
    map prod_class (ifc_products m) =
      repeat IfcSlab (length (el_slabs els)) ++ repeat IfcWall (length (el_walls els)) ++
      repeat IfcColumn (length (el_columns els)) /\
    length (filter has_no_body (ifc_products m)) = length (filter wall_too_short (el_walls els)) /\
    forall p, In p (ifc_products m) ->
      (prod_body p <> None /\ prod_container p = Some 0%nat) \/
      (prod_class p = IfcWall /\ prod_body p = None /\ prod_container p = None).
Proof.
  set (st := create_ifc_structure (if Nat.eqb n 0 then 1%nat else n)).
  pose proof (structure_has_ground (if Nat.eqb n 0 then 1%nat else n)) as H0. fold st in H0.
  eexists. split; [apply generate_spec|]. cbv zeta. fold st. simpl ifc_products.
  split; [|split].
  - rewrite !map_app, !map_map.
    rewrite (map_const_repeat _ IfcSlab) by reflexivity.
    rewrite (map_const_repeat _ IfcWall)
      by (intro w; rewrite (create_wall_zero st w H0); destruct (wall_too_short w); reflexivity).
    rewrite (map_const_repeat _ IfcColumn) by reflexivity.
    reflexivity.
  - rewrite !filter_app.
    assert (Hs : forall l : list slab,
      filter has_no_body (map (fun s => mkproduct IfcSlab (Some (SweptSolid (create_slab s (md_bounds md))))
                                       (Some 0%nat)) l) = []).
    { induction l; simpl; auto. }
    assert (Hc : forall l : list column,
      filter has_no_body (map (fun c => mkproduct IfcColumn (Some (SweptSolid (column_geometry c)))
                                       (Some 0%nat)) l) = []).
    { induction l; simpl; auto. }
    rewrite Hs, Hc, app_nil_r. simpl.
    induction (el_walls (md_elements md)) as [|w ws IH]; [reflexivity|].
    simpl. rewrite (create_wall_zero st w H0).
    destruct (wall_too_short w); simpl; rewrite IH; reflexivity.
  - intros p Hp. rewrite !in_app_iff, !in_map_iff in Hp.
    destruct Hp as [[s [<- _]] | [[w [<- _]] | [c [<- _]]]].
    + left. split; [discriminate | reflexivity].
    + rewrite (create_wall_zero st w H0). destruct (wall_too_short w).
      * right. repeat split.
      * left. split; [discriminate | reflexivity].
    + left. split; [discriminate | reflexivity].
Qed.

(** ** The IFC entities of a processed cloud *)

Lemma run_pipeline_ok (self : processor) (md : model_data) :
  run_pipeline self = Ok md ->
  exists c slabs walls columns, downsampled_cloud self = Some c /\
    detect_slabs c (5#100) = Ok slabs /\ detect_walls c (1#10) = Ok walls /\
    detect_columns c (5#10) = Ok columns /\
    md = mkmodel (task_id self) (length c) (mkelements slabs walls columns)
                 (mkbounds (get_min_bound c) (get_max_bound c)).
Proof.
  unfold run_pipeline, segment_building_elements.
  destruct (downsampled_cloud self) as [c|] eqn:Ec; [|discriminate].
  destruct (detect_slabs c (5#100)) as [s|] eqn:Es; [|discriminate]. cbn [bind].
  destruct (detect_walls c (1#10)) as [w|] eqn:Ew; [|discriminate]. cbn [bind].
  destruct (detect_columns c (5#10)) as [k|] eqn:Ek; [|discriminate]. cbn [bind].
  intro H. destruct (assemble_ok _ _ _ H) as [c' [Hc' ->]].
  rewrite Ec in Hc'. injection Hc' as <-.
  exists c, s, w, k. repeat split; assumption.
Qed.

(** A wall at least 0.1 long along an axis is kept by create_wall. *)
Lemma axis_wall_kept (w : wall) (d : Q) :
  1#10 <= d ->
  (py (wall_start w) = py (wall_end w) /\ px (wall_start w) + d <= px (wall_end w)) \/
  (px (wall_start w) = px (wall_end w) /\ py (wall_start w) + d <= py (wall_end w)) ->
  wall_too_short w = false.
Proof.
  intros Hd H. unfold wall_too_short, wall_length_sq. apply Qltb_false.
  unfold Qpower, Qpower_positive, pow_pos.
  destruct H as [[Hy Hx]|[Hx Hy]]; rewrite ?Hy, ?Hx; nra.
Qed.

(** On the elements of a processed cloud, generate leaves no IfcWall
    without geometry: every wall of detect_walls is at least 25/6 grid cells
    of 0.1 long, so create_wall never takes its early return, and every
    entity has geometry and is contained in storey 0. *)
Theorem pipeline_ifc_all_placed (self : processor) (md : model_data) (n : nat) :
  run_pipeline self = Ok md ->
  exists m, generate md n = Some (ifc_path_of (task_id self), m) /\
    forall p, In p (ifc_products m) -> prod_body p <> None /\ prod_container p = Some 0%nat.
Proof.
  intro H. pose proof (run_pipeline_ok _ _ H) as (c & s & w & k & Hc & Hs & Hw & Hk & Hmd).
  set (st := create_ifc_structure (if Nat.eqb n 0 then 1%nat else n)).
  pose proof (structure_has_ground (if Nat.eqb n 0 then 1%nat else n)) as H0. fold st in H0.
  eexists. split; [rewrite (generate_spec md n), Hmd; reflexivity|].
  rewrite Hmd. simpl ifc_products. fold st.
  intros p Hp. rewrite !in_app_iff, !in_map_iff in Hp.
  destruct Hp as [[x [<- _]] | [[x [<- Hx]] | [x [<- _]]]].
  - split; [discriminate | reflexivity].
  - rewrite (create_wall_zero st x H0).
    rewrite (axis_wall_kept x ((25#6) * (1#10))).
    + split; [discriminate | reflexivity].
    + unfold Qle; simpl; lia.
    + apply (wall_ends_oriented c (1#10) w x); [reflexivity | exact Hw | exact Hx].
  - split; [discriminate | reflexivity].
Qed.

Lemma cloud_nonempty (c : list point) (f : point -> Q) (m : Q) :
  py_min (map f c) = Ok m -> c <> [].
Proof. destruct c; [discriminate | intros _; discriminate]. Qed.

Lemma py_min_bound (c : list point) (f : point -> Q) (m : Q) :
  py_min (map f c) = Ok m -> m = fold_bound Qltb (map f c).
Proof.
  intro H. rewrite fold_bound_min in H; [congruence|].
  destruct c; [discriminate | discriminate].
Qed.

Lemma py_max_bound (c : list point) (f : point -> Q) (m : Q) :
  py_max (map f c) = Ok m -> m = fold_bound (fun y m => Qltb m y) (map f c).
Proof.
  intro H. rewrite fold_bound_max in H; [congruence|].
  destruct c; [discriminate | discriminate].
Qed.

(** The IfcColumn entities of a processed cloud: a 0.4 by 0.4 profile
    extruded along +Z from the bottom face of the saved bounding box up to
    its top face (at least 2.0), at a position inside the box. *)
Theorem pipeline_ifc_columns (self : processor) (md : model_data) (n : nat) :
  run_pipeline self = Ok md ->
  exists m, generate md n = Some (ifc_path_of (task_id self), m) /\
    let b := md_bounds md in
    forall p, In p (ifc_products m) -> prod_class p = IfcColumn ->
      exists g, prod_body p = Some (SweptSolid g) /\ prod_container p = Some 0%nat /\
        geo_profile g = mkprofile (4#10) (4#10) /\ geo_extruded_direction g = mkpt 0 0 1 /\
        geo_depth g = pz (bmax b) - pz (bmin b) /\ 2 <= geo_depth g /\
        pz (geo_location g) = pz (bmin b) /\
        px (bmin b) <= px (geo_location g) <= px (bmax b) /\
        py (bmin b) <= py (geo_location g) <= py (bmax b).
Proof.
  intro H. pose proof (run_pipeline_ok _ _ H) as (c & s & w & k & Hc & Hs & Hw & Hk & Hmd).
  set (st := create_ifc_structure (if Nat.eqb n 0 then 1%nat else n)).
  pose proof (structure_has_ground (if Nat.eqb n 0 then 1%nat else n)) as H0. fold st in H0.
  eexists. split; [rewrite (generate_spec md n), Hmd; reflexivity|].
  cbv zeta. rewrite Hmd. simpl ifc_products. fold st.
  intros p Hp Hcl. rewrite !in_app_iff, !in_map_iff in Hp.
  destruct Hp as [[x [<- _]] | [[x [<- _]] | [x [<- Hx]]]].
  - discriminate.
  - rewrite (create_wall_zero st x H0) in Hcl. destruct (wall_too_short x); discriminate.
  - exists (column_geometry x). split; [reflexivity | split; [reflexivity|]].
    destruct (column_fields_of c (5#10) k x Hk Hx)
      as (z_min & z_max & Hzmin & Hzmax & H2 & Hh & Hpz & Hwd & Hdp).
    destruct (column_inside_of c (5#10) k x Hk Hx)
      as (x_min & x_max & y_min & y_max & Hxmin & Hxmax & Hymin & Hymax & Hix & Hiy).
    rewrite (py_min_bound _ _ _ Hzmin) in Hpz, Hh, H2.
    rewrite (py_max_bound _ _ _ Hzmax) in Hh, H2.
    rewrite (py_min_bound _ _ _ Hxmin), (py_max_bound _ _ _ Hxmax) in Hix.
    rewrite (py_min_bound _ _ _ Hymin), (py_max_bound _ _ _ Hymax) in Hiy.
    unfold column_geometry. simpl.
    rewrite Hwd, Hdp, Hh, Hpz. repeat split; try apply Hix; try apply Hiy.
    exact H2.
Qed.

Lemma half_span (lo hi x : Q) :
  lo <= x <= hi -> (hi + lo) / 2 - (hi - lo) / 2 <= x <= (hi + lo) / 2 + (hi - lo) / 2.
Proof.
  intros [H1 H2].
  setoid_replace ((hi + lo) / 2 - (hi - lo) / 2) with lo by field.
  setoid_replace ((hi + lo) / 2 + (hi - lo) / 2) with hi by field.
  split; assumption.
Qed.

Lemma slab_in_z_range (c : list point) (r : list slab) (s : slab) :
  detect_slabs c (5#100) = Ok r -> In s r ->
  exists z_min z_max, py_min (map pz c) = Ok z_min /\ py_max (map pz c) = Ok z_max /\
    z_min <= slab_z s <= z_max.
Proof.
  intros H Hs.
  destruct (detect_slabs_ok _ _ _ H) as (z_min & z_max & bins & Hmin & Hmax & Hb & Hb1 & Hlt & _).
  destruct (slabs_range_of _ _ _ H) as (z_min' & z_max' & bins' & Hmin' & Hmax' & Hb' & _ & Hall).
  rewrite Hmin in Hmin'. injection Hmin' as <-. rewrite Hmax in Hmax'. injection Hmax' as <-.
  rewrite Hb in Hb'. injection Hb' as <-.
  exists z_min, z_max. split; [exact Hmin | split; [exact Hmax |]].
  destruct (Hall s Hs) as [[Hlo Hhi] _].
  assert (Ha : 0 <= (z_max - z_min) / inject_Z bins / 2).
  { apply Qle_shift_div_l; [reflexivity|]. apply Qle_shift_div_l.
    - unfold Qlt; simpl; lia.
    - rewrite !Qmult_0_l. apply Qlt_le_weak in Hlt. lra. }
  split; lra.
Qed.

(** The IfcSlab entities of a processed cloud: each profile, placed at its
    location, covers the x-y extent of every point of the downsampled cloud,
    and each slab lies between the bottom and top faces of the saved box. *)
Theorem pipeline_ifc_slabs_cover (self : processor) (md : model_data) (c : list point) (n : nat) :
  run_pipeline self = Ok md -> downsampled_cloud self = Some c ->
  exists m, generate md n = Some (ifc_path_of (task_id self), m) /\
    forall p, In p (ifc_products m) -> prod_class p = IfcSlab ->
      exists g, prod_body p = Some (SweptSolid g) /\ prod_container p = Some 0%nat /\
        pz (bmin (md_bounds md)) <= pz (geo_location g) <= pz (bmax (md_bounds md)) /\
        forall q, In q c ->
          px (geo_location g) - prof_xdim (geo_profile g) / 2 <= px q <=
            px (geo_location g) + prof_xdim (geo_profile g) / 2 /\
          py (geo_location g) - prof_ydim (geo_profile g) / 2 <= py q <=
            py (geo_location g) + prof_ydim (geo_profile g) / 2.
Proof.
  intros H Hc0. pose proof (run_pipeline_ok _ _ H) as (c' & s & w & k & Hc & Hs & Hw & Hk & Hmd).
  rewrite Hc0 in Hc. injection Hc as <-.
  set (st := create_ifc_structure (if Nat.eqb n 0 then 1%nat else n)).
  pose proof (structure_has_ground (if Nat.eqb n 0 then 1%nat else n)) as H0. fold st in H0.
  eexists. split; [rewrite (generate_spec md n), Hmd; reflexivity|].
  rewrite Hmd. simpl ifc_products. fold st.
  intros p Hp Hcl. rewrite !in_app_iff, !in_map_iff in Hp.
  destruct Hp as [[x [<- Hx]] | [[x [<- _]] | [x [<- _]]]].
  - eexists. split; [reflexivity | split; [reflexivity|]]. simpl.
    split.
    + destruct (slab_in_z_range c s x Hs Hx) as (z_min & z_max & Hzmin & Hzmax & Hz).
      rewrite (py_min_bound _ _ _ Hzmin), (py_max_bound _ _ _ Hzmax) in Hz. exact Hz.
    + intros q Hq. split; apply half_span, bound_coord_le; exact Hq.
  - rewrite (create_wall_zero st x H0) in Hcl. destruct (wall_too_short x); discriminate.
  - discriminate.
Qed.

(** ** Dicts and files *)

Lemma dict_get_set {V} (d : list (string * V)) (k k' : string) (v : V) :
  dict_get (dict_set d k v) k' = if String.eqb k k' then Some v else dict_get d k'.
Proof.
  induction d as [|[k0 v0] d IH]; simpl.
  - reflexivity.
  - destruct (String.eqb_spec k0 k) as [->|Hne]; simpl.
    + destruct (String.eqb k k'); reflexivity.
    + rewrite IH. destruct (String.eqb_spec k0 k') as [->|Hne'];
        destruct (String.eqb_spec k k') as [->|Hne'']; congruence.
Qed.

Lemma dict_get_none {V} (d : list (string * V)) (k : string) :
  ~ In k (map fst d) -> dict_get d k = None.
Proof.
  induction d as [|[k0 v0] d IH]; simpl; intro H; [reflexivity|].
  destruct (String.eqb_spec k0 k) as [->|_]; [tauto | auto].
Qed.

Lemma dict_update_get {V} (d u : list (string * V)) (k : string) :
  NoDup (map fst u) ->
  dict_get (dict_update d u) k =
  match dict_get u k with Some v => Some v | None => dict_get d k end.
Proof.
  unfold dict_update. revert d.
  induction u as [|[k1 v1] u IH]; intros d Hnd; simpl; [reflexivity|].
  inversion Hnd as [|? ? Hnin Hnd']; subst.
  rewrite IH by exact Hnd'. rewrite dict_get_set.
  destruct (String.eqb_spec k1 k) as [->|_]; [|reflexivity].
  rewrite (dict_get_none u k Hnin). reflexivity.
Qed.

(** ** The HTTP API *)


(** After an accepted upload, get_status of the new id returns the record
    with status "uploaded" and the upload path, and that path holds the
    uploaded bytes; every other task and every other file is unchanged. *)
Lemma upload_accepted (filename content new_id now : string) (st : api_state) :
  py_endswith filename ".e57" = true ->
  let (r, st') := upload_file filename content new_id now st in
  r = HOk (mkupload_resp new_id filename "uploaded") /\
  get_status new_id st' =
    HOk (mktask new_id filename "uploaded" now (upload_path_of new_id)) /\
  fs_read (files st') (upload_path_of new_id) = Some (FBytes content) /\
  (forall tid, tid <> new_id -> get_status tid st' = get_status tid st) /\
  (forall path, path <> upload_path_of new_id -> fs_read (files st') path = fs_read (files st) path).
Proof.
  intro H. unfold upload_file. rewrite H. simpl negb. cbv iota.
  split; [reflexivity|].
  unfold get_status, fs_read, fs_write. simpl.
  rewrite !dict_get_set, !String.eqb_refl.
  split; [reflexivity | split; [reflexivity|]].
  split.
  - intros tid Hne. rewrite dict_get_set.
    destruct (String.eqb_spec new_id tid); [congruence | reflexivity].
  - intros path Hne. rewrite dict_get_set.
    destruct (String.eqb_spec (upload_path_of new_id) path); [congruence | reflexivity].
Qed.

(** An accepted upload registers the task as "uploaded" with its upload
    path, which holds the uploaded bytes; nothing else changes. *)
Theorem upload_then_status (filename content new_id now : string) (st : api_state) :
  py_endswith filename ".e57" = true ->
  let (r, st') := upload_file filename content new_id now st in
  r = HOk (mkupload_resp new_id filename "uploaded") /\
  get_status new_id st' =
    HOk (mktask new_id filename "uploaded" now (upload_path_of new_id)) /\
  fs_read (files st') (upload_path_of new_id) = Some (FBytes content) /\
  (forall tid, tid <> new_id -> get_status tid st' = get_status tid st) /\
  (forall path, path <> upload_path_of new_id -> fs_read (files st') path = fs_read (files st) path).
Proof. exact (upload_accepted filename content new_id now st). Qed.


(** process_task only relabels the task: its status becomes "processing",
    its other fields, the other tasks and all files stay as they were, so it
    creates no model and no IFC file (the call to process_point_cloud is
    still a TODO). *)
Theorem process_task_only_marks (tid : string) (t : task_record) (st : api_state) :
  dict_get (tasks_storage st) tid = Some t ->
  let (r, st') := process_task tid st in
  r = HOk (mkprocess_resp tid "processing") /\
  get_status tid st' = HOk (mktask (t_id t) (t_filename t) "processing" (t_created_at t) (t_file_path t)) /\
  (forall tid', tid' <> tid -> get_status tid' st' = get_status tid' st) /\
  files st' = files st /\
  get_model tid st' = get_model tid st /\ export_ifc tid st' = export_ifc tid st.
Proof.
  intro H. unfold process_task. rewrite H.
  split; [reflexivity|].
  unfold get_status, get_model, export_ifc. simpl. rewrite !dict_get_set, String.eqb_refl, H.
  split; [reflexivity|]. split.
  - intros tid' Hne. rewrite dict_get_set.
    destruct (String.eqb_spec tid tid'); [congruence | reflexivity].
  - split; [reflexivity | split; reflexivity].
Qed.

(** update_model followed by get_model: the model read back has the new
    value of every updated key and the old value of every other key, and
    the answer lists the updated keys. *)
Theorem update_then_get_model (tid : string) (t : task_record) (model_data : list (string * json))
    (updates : list (string * json)) (st : api_state) :
  dict_get (tasks_storage st) tid = Some t ->
  fs_read (files st) (model_path_of tid) = Some (FJson (JObj model_data)) ->
  NoDup (map fst updates) ->
  let (r, st') := update_model tid updates st in
  r = HOk (mkupdate_resp tid (map fst updates)) /\
  exists model_data', get_model tid st' = HOk (JObj model_data') /\
    forall k, dict_get model_data' k =
              match dict_get updates k with Some v => Some v | None => dict_get model_data k end.
Proof.
  intros Ht Hf Hnd. unfold update_model. rewrite Ht, Hf.
  split; [reflexivity|].
  exists (dict_update model_data updates). split.
  - unfold get_model, fs_read, fs_write. simpl. rewrite Ht, dict_get_set, String.eqb_refl.
    reflexivity.
  - intro k. apply dict_update_get, Hnd.
Qed.

(** ** process_point_cloud *)

(** The path prefixes tell the four kinds of files apart. *)
Lemma paths_distinct (tid : string) :
  String.eqb (ply_path_of tid) (model_path_of tid) = false /\
  String.eqb (ply_path_of tid) (ifc_path_of tid) = false /\
  String.eqb (model_path_of tid) (ifc_path_of tid) = false /\
  String.eqb (ply_path_of tid) (upload_path_of tid) = false /\
  String.eqb (model_path_of tid) (upload_path_of tid) = false /\
  String.eqb (ifc_path_of tid) (upload_path_of tid) = false.
Proof. repeat split. Qed.

Lemma storeys_len_model (md : model_data) : storeys_len (model_json md) = Some 0%nat.
Proof. reflexivity. Qed.

Section ProcessingProofs.

Variable read_scan : file -> option (list point).
Variable remove_statistical_outlier : list point -> list point.
Variable voxel_down_sample : Q -> list point -> list point.

(** What process_point_cloud does with a task's upload: it reads the points,
    filters and downsamples them, writes the PLY, and then either stops with
    the pipeline's exception or writes the model and the IFC file. *)
Lemma process_cases (tid : string) (d : fs) :
  match fs_read d (upload_path_of tid) with
  | Some f =>
      match read_scan f with
      | Some points =>
          let down := voxel_down_sample (5#100) (remove_statistical_outlier points) in
          let self := mkprocessor tid (upload_path_of tid) (Some (remove_statistical_outlier points))
                                  (Some down) in
          let d1 := fs_write d (ply_path_of tid) (FPly down) in
          match run_pipeline self with
          | Err e => process_point_cloud read_scan remove_statistical_outlier voxel_down_sample tid d = (ProcessError (Raised e), d1)
          | Ok md =>
              exists m, generate md 0 = Some (ifc_path_of tid, m) /\
                process_point_cloud read_scan remove_statistical_outlier voxel_down_sample tid d =
                (Processed (length down) (ply_path_of tid) (model_path_of tid) (ifc_path_of tid)
                           (length (el_slabs (md_elements md))) (length (el_walls (md_elements md)))
                           (length (el_columns (md_elements md))),
                 fs_write (fs_write d1 (model_path_of tid) (FJson (model_json md)))
                          (ifc_path_of tid) (FIfc m))
          end
      | None => process_point_cloud read_scan remove_statistical_outlier voxel_down_sample tid d = (ProcessError LoadFailed, d)
      end
  | None => process_point_cloud read_scan remove_statistical_outlier voxel_down_sample tid d = (ProcessError LoadFailed, d)
  end.
Proof.
  unfold process_point_cloud, load_e57, PointCloudProcessor. simpl e57_path.
  destruct (fs_read d (upload_path_of tid)) as [f|]; [|reflexivity].
  destruct (read_scan f) as [points|]; [|reflexivity].
  cbn [filter_noise downsample point_cloud downsampled_cloud task_id e57_path].
  cbv zeta. unfold run_pipeline.
  destruct (segment_building_elements _) as [els|e]; cbn [bind]; [|reflexivity].
  destruct (assemble _ els) as [md|e] eqn:Ea; [|reflexivity].
  destruct (assemble_ok _ _ _ Ea) as [c [Hc Hmd]]. cbn [downsampled_cloud] in Hc.
  injection Hc as Hc.
  rewrite storeys_len_model.
  destruct (generate_some md 0) as [m Hg].
  assert (Ht : md_task_id md = tid) by (rewrite Hmd; reflexivity).
  assert (He : md_elements md = els) by (rewrite Hmd; reflexivity).
  rewrite Ht in Hg. exists m. split; [exact Hg|]. rewrite Hg, He. reflexivity.
Qed.


(** process_point_cloud never raises KeyError or TypeError, and when it
    reports an error it has written neither a model nor an IFC file: those
    paths hold what they held before. *)
Theorem process_error_no_outputs (tid : string) (d d' : fs) (e : process_error) :
  process_point_cloud read_scan remove_statistical_outlier voxel_down_sample tid d = (ProcessError e, d') ->
  (e = LoadFailed \/ exists pe, e = Raised pe) /\
  fs_read d' (model_path_of tid) = fs_read d (model_path_of tid) /\
  fs_read d' (ifc_path_of tid) = fs_read d (ifc_path_of tid).
Proof.
  intro H. pose proof (process_cases tid d) as Hc.
  destruct (fs_read d (upload_path_of tid)) as [f|];
    [|rewrite Hc in H; injection H as <- <-; auto].
  destruct (read_scan f) as [points|]; [|rewrite Hc in H; injection H as <- <-; auto].
  cbv zeta in Hc. destruct (run_pipeline _) as [md|pe].
  - destruct Hc as [m [_ Hc]]. rewrite Hc in H. discriminate.
  - rewrite Hc in H. injection H as <- <-.
    split; [eauto|]. unfold fs_read, fs_write. rewrite !dict_get_set.
    destruct (paths_distinct tid) as (H1 & H2 & _). rewrite H1, H2. split; reflexivity.
Qed.

(** A successful process_point_cloud reports the downsampled cloud's size,
    the three output paths and the element counts of the model it saved; it
    writes the PLY of the downsampled cloud, the model's JSON and the IFC
    file generate builds from that model, and no other file. *)
Lemma process_success_files (tid : string) (d d' : fs)
    (pc : nat) (ply mp ip : string) (ns nw nc : nat) :
  process_point_cloud read_scan remove_statistical_outlier voxel_down_sample tid d = (Processed pc ply mp ip ns nw nc, d') ->
  exists f points md m,
    let down := voxel_down_sample (5#100) (remove_statistical_outlier points) in
    fs_read d (upload_path_of tid) = Some f /\ read_scan f = Some points /\
    run_pipeline (mkprocessor tid (upload_path_of tid) (Some (remove_statistical_outlier points))
                              (Some down)) = Ok md /\
    generate md 0 = Some (ifc_path_of tid, m) /\
    pc = length down /\ pc = md_point_count md /\
    ply = ply_path_of tid /\ mp = model_path_of tid /\ ip = ifc_path_of tid /\
    ns = length (el_slabs (md_elements md)) /\ nw = length (el_walls (md_elements md)) /\
    nc = length (el_columns (md_elements md)) /\
    fs_read d' (ply_path_of tid) = Some (FPly down) /\
    fs_read d' (model_path_of tid) = Some (FJson (model_json md)) /\
    fs_read d' (ifc_path_of tid) = Some (FIfc m) /\
    forall path, path <> ply_path_of tid -> path <> model_path_of tid -> path <> ifc_path_of tid ->
      fs_read d' path = fs_read d path.
Proof.
  intro H. pose proof (process_cases tid d) as Hc.
  destruct (fs_read d (upload_path_of tid)) as [f|] eqn:Ef; [|rewrite Hc in H; discriminate].
  destruct (read_scan f) as [points|] eqn:Er; [|rewrite Hc in H; discriminate].
  cbv zeta in Hc. destruct (run_pipeline _) as [md|pe] eqn:Ep; [|rewrite Hc in H; discriminate].
  destruct Hc as [m [Hg Hc]]. rewrite Hc in H. injection H as <- <- <- <- <- <- <- <-.
  exists f, points, md, m. cbv zeta.
  destruct (run_pipeline_ok _ _ Ep) as (c & s & w & k & Hcl & _ & _ & _ & Hmd).
  simpl in Hcl. injection Hcl as Hcl.
  destruct (paths_distinct tid) as (H1 & H2 & H3 & _).
  unfold fs_read, fs_write. rewrite !dict_get_set, !String.eqb_refl.
  rewrite String.eqb_sym in H1, H2, H3. rewrite H1, H2, H3.
  repeat split; try assumption; try reflexivity.
  - rewrite Hmd, <- Hcl. reflexivity.
  - intros path Hp1 Hp2 Hp3. rewrite !dict_get_set.
    destruct (String.eqb_spec (ifc_path_of tid) path); [congruence|].
    destruct (String.eqb_spec (model_path_of tid) path); [congruence|].
    destruct (String.eqb_spec (ply_path_of tid) path); [congruence | reflexivity].
Qed.

(** What a successful process_point_cloud reports and writes. *)
Theorem process_success_outputs (tid : string) (d d' : fs)
    (pc : nat) (ply mp ip : string) (ns nw nc : nat) :
  process_point_cloud read_scan remove_statistical_outlier voxel_down_sample tid d = (Processed pc ply mp ip ns nw nc, d') ->
  exists f points md m,
    let down := voxel_down_sample (5#100) (remove_statistical_outlier points) in
    fs_read d (upload_path_of tid) = Some f /\ read_scan f = Some points /\
    run_pipeline (mkprocessor tid (upload_path_of tid) (Some (remove_statistical_outlier points))
                              (Some down)) = Ok md /\
    generate md 0 = Some (ifc_path_of tid, m) /\
    pc = length down /\ pc = md_point_count md /\
    ply = ply_path_of tid /\ mp = model_path_of tid /\ ip = ifc_path_of tid /\
    ns = length (el_slabs (md_elements md)) /\ nw = length (el_walls (md_elements md)) /\
    nc = length (el_columns (md_elements md)) /\
    fs_read d' (ply_path_of tid) = Some (FPly down) /\
    fs_read d' (model_path_of tid) = Some (FJson (model_json md)) /\
    fs_read d' (ifc_path_of tid) = Some (FIfc m) /\
    forall path, path <> ply_path_of tid -> path <> model_path_of tid -> path <> ifc_path_of tid ->
      fs_read d' path = fs_read d path.
Proof. exact (process_success_files tid d d' pc ply mp ip ns nw nc). Qed.


End ProcessingProofs.

(** ** Witnesses *)

Lemma detect_slabs_nonempty_witness :
  detect_slabs ex2 (5#100) = Ok slabs_ex2 /\ slabs_ex2 <> [].
Proof.
  split; [vm_compute; reflexivity|].
  apply (detect_slabs_nonempty ex2 (5#100)). vm_compute. reflexivity.
Defined.

Lemma detect_slabs_range_witness :
  exists z_min z_max bins,
    py_min (map pz ex2) = Ok z_min /\ py_max (map pz ex2) = Ok z_max /\
    py_int_div (z_max - z_min) (5#100) = Ok bins /\
    (length slabs_ex2 <= Z.to_nat bins)%nat /\
    forall s, In s slabs_ex2 ->
      z_min + (z_max - z_min) / inject_Z bins / 2 <= slab_z s <=
      z_max - (z_max - z_min) / inject_Z bins / 2 /\ slab_thickness s = 3#10.
Proof.
  apply (detect_slabs_range ex2 (5#100)). vm_compute. reflexivity.
Defined.

Lemma detect_slabs_spaced_witness :
  (S 0 < length slabs_ex2)%nat /\
  slab_z (nth 0 slabs_ex2 dummy_slab) + (3#10) <= slab_z (nth 1 slabs_ex2 dummy_slab).
Proof.
  split; [vm_compute; auto|].
  apply (detect_slabs_spaced ex2 (5#100) slabs_ex2); [vm_compute; reflexivity|].
  vm_compute. auto.
Defined.

Lemma detect_slabs_nonpositive_step_witness :
  0 <= 0 /\ exists e, detect_slabs ex2 0 = Err e.
Proof.
  split; [apply Qle_refl|]. apply (detect_slabs_nonpositive_step ex2 0). apply Qle_refl.
Defined.

Lemma detect_walls_axis_aligned_witness :
  0 < 1#10 /\ detect_walls exw10 (1#10) = Ok walls10 /\
  In (hd line_wall_dummy walls10) walls10 /\
  ((py (wall_start (hd line_wall_dummy walls10)) = py (wall_end (hd line_wall_dummy walls10)) /\
    px (wall_start (hd line_wall_dummy walls10)) + (25#6) * (1#10) <=
      px (wall_end (hd line_wall_dummy walls10))) \/
   (px (wall_start (hd line_wall_dummy walls10)) = px (wall_end (hd line_wall_dummy walls10)) /\
    py (wall_start (hd line_wall_dummy walls10)) + (25#6) * (1#10) <=
      py (wall_end (hd line_wall_dummy walls10)))).
Proof.
  split; [vm_compute; reflexivity|].
  split; [vm_compute; reflexivity|].
  split; [vm_compute; left; reflexivity|].
  apply (detect_walls_axis_aligned exw10 (1#10) walls10);
    [vm_compute; reflexivity | vm_compute; reflexivity | vm_compute; left; reflexivity].
Defined.

Lemma detect_walls_height_positive_witness :
  In (hd line_wall_dummy walls10) walls10 /\ 0 < wall_height (hd line_wall_dummy walls10).
Proof.
  split; [vm_compute; left; reflexivity|].
  apply (detect_walls_height_positive exw10 (1#10) walls10);
    [vm_compute; reflexivity | vm_compute; left; reflexivity].
Defined.

Lemma detect_columns_fields_witness :
  In (hd column_dummy columns_exc) columns_exc /\
  exists z_min z_max, py_min (map pz exc) = Ok z_min /\ py_max (map pz exc) = Ok z_max /\
    2 <= z_max - z_min /\ col_height (hd column_dummy columns_exc) = z_max - z_min /\
    pz (col_position (hd column_dummy columns_exc)) = z_min /\
    col_width (hd column_dummy columns_exc) = 4#10 /\ col_depth (hd column_dummy columns_exc) = 4#10.
Proof.
  split; [vm_compute; left; reflexivity|].
  apply (detect_columns_fields exc (5#10) columns_exc);
    [vm_compute; reflexivity | vm_compute; left; reflexivity].
Defined.

Lemma detect_columns_inside_witness :
  In (hd column_dummy columns_exc) columns_exc /\
  exists x_min x_max y_min y_max,
    py_min (map px exc) = Ok x_min /\ py_max (map px exc) = Ok x_max /\
    py_min (map py exc) = Ok y_min /\ py_max (map py exc) = Ok y_max /\
    x_min <= px (col_position (hd column_dummy columns_exc)) <= x_max /\
    y_min <= py (col_position (hd column_dummy columns_exc)) <= y_max.
Proof.
  split; [vm_compute; left; reflexivity|].
  apply (detect_columns_inside exc (5#10) columns_exc);
    [vm_compute; reflexivity | vm_compute; left; reflexivity].
Defined.

Lemma save_model_bounds_box_witness :
  assemble proc_exw10 (mkelements [] [] []) =
    Ok (mkmodel "t" 7 (mkelements [] [] []) (mkbounds (mkpt 0 0 0) (mkpt (5#10) 0 1))) /\
  exists c, downsampled_cloud proc_exw10 = Some c /\
    md_point_count (mkmodel "t" 7 (mkelements [] [] []) (mkbounds (mkpt 0 0 0) (mkpt (5#10) 0 1)))
      = length c /\
    let b := mkbounds (mkpt 0 0 0) (mkpt (5#10) 0 1) in
    (forall q, In q c ->
       px (bmin b) <= px q <= px (bmax b) /\ py (bmin b) <= py q <= py (bmax b) /\
       pz (bmin b) <= pz q <= pz (bmax b)) /\
    (c <> [] ->
       In (px (bmin b)) (map px c) /\ In (px (bmax b)) (map px c) /\
       In (py (bmin b)) (map py c) /\ In (py (bmax b)) (map py c) /\
       In (pz (bmin b)) (map pz c) /\ In (pz (bmax b)) (map pz c)).
Proof.
  assert (H : assemble proc_exw10 (mkelements [] [] []) =
    Ok (mkmodel "t" 7 (mkelements [] [] []) (mkbounds (mkpt 0 0 0) (mkpt (5#10) 0 1))))
    by (vm_compute; reflexivity).
  split; [exact H | exact (save_model_bounds_box _ _ _ H)].
Defined.

Lemma generate_storeys_witness :
  exists m, generate (mkmodel "t" 0 (mkelements [] [] []) (mkbounds (mkpt 0 0 0) (mkpt 0 0 0))) 3
    = Some (ifc_path_of "t", m) /\
    map fst (ifc_storeys m) = seq 0 (Nat.max 1 3) /\
    ((3 <= 1)%nat -> ifc_storeys m = [(0%nat, "Ground Floor"%string)]).
Proof. apply generate_storeys. Defined.

Lemma generate_products_witness :
  let md := mkmodel "t" 0 (mkelements [mkslab 1 (3#10)]
                                      [mkwall (mkpt 0 0 0) (mkpt (1#20) 0 0) 1 (2#10)]
                                      [mkcolumn (mkpt 0 0 0) 2 (4#10) (4#10)])
                    (mkbounds (mkpt 0 0 0) (mkpt 1 1 2)) in
  exists m, generate md 0 = Some (ifc_path_of "t", m) /\
    let els := md_elements md in
    map prod_class (ifc_products m) =
      repeat IfcSlab (length (el_slabs els)) ++ repeat IfcWall (length (el_walls els)) ++
      repeat IfcColumn (length (el_columns els)) /\
    length (filter has_no_body (ifc_products m)) = length (filter wall_too_short (el_walls els)) /\
    forall p, In p (ifc_products m) ->
      (prod_body p <> None /\ prod_container p = Some 0%nat) \/
      (prod_class p = IfcWall /\ prod_body p = None /\ prod_container p = None).
Proof. intro md. apply generate_products. Defined.

Lemma pipeline_ifc_all_placed_witness :
  exists md, run_pipeline proc_exw10 = Ok md /\
  exists m, generate md 0 = Some (ifc_path_of (task_id proc_exw10), m) /\
    forall p, In p (ifc_products m) -> prod_body p <> None /\ prod_container p = Some 0%nat.
Proof.
  eexists. split; [vm_compute; reflexivity|].
  apply pipeline_ifc_all_placed. vm_compute. reflexivity.
Defined.

Lemma pipeline_ifc_columns_witness :
  exists md, run_pipeline proc_exc = Ok md /\
  exists m, generate md 0 = Some (ifc_path_of (task_id proc_exc), m) /\
    let b := md_bounds md in
    forall p, In p (ifc_products m) -> prod_class p = IfcColumn ->
      exists g, prod_body p = Some (SweptSolid g) /\ prod_container p = Some 0%nat /\
        geo_profile g = mkprofile (4#10) (4#10) /\ geo_extruded_direction g = mkpt 0 0 1 /\
        geo_depth g = pz (bmax b) - pz (bmin b) /\ 2 <= geo_depth g /\
        pz (geo_location g) = pz (bmin b) /\
        px (bmin b) <= px (geo_location g) <= px (bmax b) /\
        py (bmin b) <= py (geo_location g) <= py (bmax b).
Proof.
  eexists. split; [vm_compute; reflexivity|].
  apply pipeline_ifc_columns. vm_compute. reflexivity.
Defined.

Lemma pipeline_ifc_slabs_cover_witness :
  downsampled_cloud proc_exw10 = Some exw10 /\
  exists md, run_pipeline proc_exw10 = Ok md /\
  exists m, generate md 0 = Some (ifc_path_of (task_id proc_exw10), m) /\
    forall p, In p (ifc_products m) -> prod_class p = IfcSlab ->
      exists g, prod_body p = Some (SweptSolid g) /\ prod_container p = Some 0%nat /\
        pz (bmin (md_bounds md)) <= pz (geo_location g) <= pz (bmax (md_bounds md)) /\
        forall q, In q exw10 ->
          px (geo_location g) - prof_xdim (geo_profile g) / 2 <= px q <=
            px (geo_location g) + prof_xdim (geo_profile g) / 2 /\
          py (geo_location g) - prof_ydim (geo_profile g) / 2 <= py q <=
            py (geo_location g) + prof_ydim (geo_profile g) / 2.
Proof.
  split; [reflexivity|].
  eexists. split; [vm_compute; reflexivity|].
  apply pipeline_ifc_slabs_cover; [vm_compute; reflexivity | reflexivity].
Defined.


Lemma upload_then_status_witness :
  py_endswith "scan.e57" ".e57" = true /\
  let (r, st') := upload_file "scan.e57" "E57" "u" "now" state_t in
  r = HOk (mkupload_resp "u" "scan.e57" "uploaded") /\
  get_status "u" st' = HOk (mktask "u" "scan.e57" "uploaded" "now" (upload_path_of "u")) /\
  fs_read (files st') (upload_path_of "u") = Some (FBytes "E57") /\
  (forall tid, tid <> "u"%string -> get_status tid st' = get_status tid state_t) /\
  (forall path, path <> upload_path_of "u" -> fs_read (files st') path = fs_read (files state_t) path).
Proof.
  split; [vm_compute; reflexivity|]. apply upload_then_status. vm_compute. reflexivity.
Defined.


Lemma process_task_only_marks_witness :
  dict_get (tasks_storage state_t) "t" = Some task_t /\
  let (r, st') := process_task "t" state_t in
  r = HOk (mkprocess_resp "t" "processing") /\
  get_status "t" st' = HOk (mktask (t_id task_t) (t_filename task_t) "processing"
                                  (t_created_at task_t) (t_file_path task_t)) /\
  (forall tid', tid' <> "t"%string -> get_status tid' st' = get_status tid' state_t) /\
  files st' = files state_t /\
  get_model "t" st' = get_model "t" state_t /\ export_ifc "t" st' = export_ifc "t" state_t.
Proof.
  assert (H : dict_get (tasks_storage state_t) "t" = Some task_t) by (vm_compute; reflexivity).
  split; [exact H | apply process_task_only_marks; exact H].
Defined.

Lemma update_then_get_model_witness :
  dict_get (tasks_storage state_t) "t" = Some task_t /\
  fs_read (files state_t) (model_path_of "t") = Some (FJson (JObj [("task_id", JStr "t")]%string)) /\
  NoDup (map fst [("task_id", JStr "u"); ("note", JNull)]%string) /\
  let (r, st') := update_model "t" [("task_id", JStr "u"); ("note", JNull)]%string state_t in
  r = HOk (mkupdate_resp "t" (map fst [("task_id", JStr "u"); ("note", JNull)]%string)) /\
  exists model_data', get_model "t" st' = HOk (JObj model_data') /\
    forall k, dict_get model_data' k =
              match dict_get [("task_id", JStr "u"); ("note", JNull)]%string k with
              | Some v => Some v
              | None => dict_get [("task_id", JStr "t")]%string k
              end.
Proof.
  assert (H1 : dict_get (tasks_storage state_t) "t" = Some task_t) by (vm_compute; reflexivity).
  assert (H2 : fs_read (files state_t) (model_path_of "t") =
               Some (FJson (JObj [("task_id", JStr "t")]%string))) by (vm_compute; reflexivity).
  assert (H3 : NoDup (map fst [("task_id", JStr "u"); ("note", JNull)]%string)).
  { simpl. constructor; [simpl; intros [H|H]; [discriminate | exact H] |].
    constructor; [intros [] | constructor]. }
  split; [exact H1 | split; [exact H2 | split; [exact H3 |]]].
  apply (update_then_get_model "t" task_t); assumption.
Defined.


Lemma process_error_no_outputs_witness :
  exists d',
  process_point_cloud (fun _ => Some []) (fun c => c) (fun _ c => c) "t"
    [(upload_path_of "t", FBytes "")] = (ProcessError (Raised ValueError), d') /\
  (Raised ValueError = LoadFailed \/ exists pe, Raised ValueError = Raised pe) /\
  fs_read d' (model_path_of "t") = fs_read [(upload_path_of "t", FBytes "")] (model_path_of "t") /\
  fs_read d' (ifc_path_of "t") = fs_read [(upload_path_of "t", FBytes "")] (ifc_path_of "t").
Proof.
  eexists. split; [vm_compute; reflexivity|].
  apply (process_error_no_outputs (fun _ => Some []) (fun c => c) (fun _ c => c)).
  vm_compute. reflexivity.
Defined.

Lemma process_success_outputs_witness :
  exists d',
  process_point_cloud (fun _ => Some exw10) (fun c => c) (fun _ c => c) "t"
    [(upload_path_of "t", FBytes "")] =
    (Processed 7 "processed/t.ply" "models/t.json" "exports/t.ifc" 1 1 0, d') /\
  exists f points md m,
    let down := (fun _ c => c) (5#100) ((fun c => c) points) in
    fs_read [(upload_path_of "t", FBytes "")] (upload_path_of "t") = Some f /\
    (fun _ => Some exw10) f = Some points /\
    run_pipeline (mkprocessor "t" (upload_path_of "t") (Some ((fun c => c) points))
                              (Some down)) = Ok md /\
    generate md 0 = Some (ifc_path_of "t", m) /\
    7%nat = length down /\ 7%nat = md_point_count md /\
    "processed/t.ply"%string = ply_path_of "t" /\ "models/t.json"%string = model_path_of "t" /\
    "exports/t.ifc"%string = ifc_path_of "t" /\
    1%nat = length (el_slabs (md_elements md)) /\ 1%nat = length (el_walls (md_elements md)) /\
    0%nat = length (el_columns (md_elements md)) /\
    fs_read d' (ply_path_of "t") = Some (FPly down) /\
    fs_read d' (model_path_of "t") = Some (FJson (model_json md)) /\
    fs_read d' (ifc_path_of "t") = Some (FIfc m) /\
    forall path, path <> ply_path_of "t" -> path <> model_path_of "t" -> path <> ifc_path_of "t" ->
      fs_read d' path = fs_read [(upload_path_of "t", FBytes "")] path.
Proof.
  eexists. split; [vm_compute; reflexivity|].
  apply (process_success_outputs (fun _ => Some exw10) (fun c => c) (fun _ c => c)).
  vm_compute. reflexivity.
Defined.

